(** * Joker's Telegram Bot: the bootstrap and lifecycle of [bot.py]

    A shallow embedding of [bot.py]: the health responder
    ([HealthCheckHandler.do_GET]), the resolution of the module constant
    [HEALTH_CHECK_ENABLED], and the three methods of [TelegramBot]
    ([setup_bot], [setup_health_server], [start]) together with its
    constructor.  Python statements that touch the outside world (the
    platform client, sockets, threads, the logger, the poll loop) act on an
    explicit [World]; exceptions are an explicit outcome. *)

From Stdlib Require Import ZArith QArith Bool Ascii String List Lia DecimalString.
From stdpp Require Import base option gmap strings.

Import ListNotations.
Local Open Scope string_scope.
Local Open Scope list_scope.

(** ** Python values of the configuration constants *)

Module Py.

(** The values a configuration constant can hold. *)
Inductive value : Type :=
| VNone
| VBool (b : bool)
| VInt (z : Z)
| VStr (s : string).

(** [bool(v)] *)
Definition truthy (v : value) : bool :=
  match v with
  | VNone => false
  | VBool b => b
  | VInt z => negb (Z.eqb z 0)
  | VStr s => negb (String.eqb s "")
  end.

(** [a or b]: the first operand when it is truthy, else the second. *)
Definition or_ (a b : value) : value :=
  if truthy a then a else b.

Definition string_of_Z (z : Z) : string :=
  DecimalString.NilZero.string_of_int (Z.to_int z).

(** [str(v)], as an f-string renders it *)
Definition str (v : value) : string :=
  match v with
  | VNone => "None"
  | VBool true => "True"
  | VBool false => "False"
  | VInt z => string_of_Z z
  | VStr s => s
  end.

(** Exception classes, with the part of the hierarchy the handlers of
    [bot.py] distinguish: [except Exception] and [except ImportError]. *)
Inductive exn_class : Type :=
| RuntimeError
| OSError
| PermissionError
| ImportError
| ValueError
| OtherException (name : string)
| KeyboardInterrupt
| SystemExit.

Record exn : Type := Exn { exn_cls : exn_class; exn_msg : string }.

(** [isinstance(e, Exception)]: [KeyboardInterrupt] and [SystemExit]
    derive from [BaseException] only. *)
Definition is_Exception (e : exn) : bool :=
  match exn_cls e with
  | KeyboardInterrupt | SystemExit => false
  | _ => true
  end.

(** [isinstance(e, ImportError)] *)
Definition is_ImportError (e : exn) : bool :=
  match exn_cls e with
  | ImportError => true
  | _ => false
  end.

(** The outcome of a statement or call. *)
Inductive result (A : Type) : Type :=
| Ok (a : A)
| Raise (e : exn).
Arguments Ok {A} a.
Arguments Raise {A} e.

End Py.

Import Py.

(** ** Module level: [HEALTH_CHECK_ENABLED] (lines 17-23) *)

Module Config.

(** [os.getenv(k)]: [None] when the variable is not set. *)
Definition getenv (environ : gmap string string) (k : string) : value :=
  match environ !! k with
  | Some s => VStr s
  | None => VNone
  end.

(** [from config import HEALTH_CHECK_ENABLED]: the module [config] is
    already loaded by line 16, so the import raises [ImportError] exactly
    when the module has no such attribute. *)
Definition import_from_config (config : gmap string value) (name : string)
  : result value :=
  match config !! name with
  | Some v => Ok v
  | None =>
      Raise (Exn ImportError ("cannot import name '" ++ name ++ "' from 'config'"))
  end.

(** The [try] / [except ImportError] of lines 18-23. *)
Definition HEALTH_CHECK_ENABLED
  (config : gmap string value) (environ : gmap string string) : result value :=
  match import_from_config config "HEALTH_CHECK_ENABLED" with
  | Ok v => Ok v
  | Raise e =>
      if is_ImportError e
      then Ok (VBool (truthy (or_ (getenv environ "RENDER")
                                  (getenv environ "RENDER_SERVICE_ID"))))
      else Raise e
  end.

(** The reading of the resolution rule that takes "presence of a marker"
    as "the variable is set". *)
Definition marker_present (environ : gmap string string) : bool :=
  bool_decide (is_Some (environ !! "RENDER"))
  || bool_decide (is_Some (environ !! "RENDER_SERVICE_ID")).

(** What the fallback computes: a marker counts when it is set to a
    non-empty string. *)
Definition marker_nonempty (environ : gmap string string) (k : string) : bool :=
  match environ !! k with
  | Some s => negb (String.eqb s "")
  | None => false
  end.

End Config.

(** ** [HealthCheckHandler] (lines 32-47) *)

Module Http.

(** What the standard library supplies to a handler: the value of
    [version_string()], the value of [date_time_string()] at the time of the
    response, and the reason phrases of the table [responses]. *)
Record Host : Type := {
  version_string : string;
  date_time_string : string;
  responses : Z -> option string
}.

(** What a [BaseHTTPRequestHandler] holds when [parse_request] has accepted
    the request line and the method is called: the request version
    (["HTTP/0.9"] for a request line of two words), the path, whether the
    connection closes after the response, the headers buffer ([None] while
    the attribute does not exist), the writes made to [wfile], in order, and
    the lines written to the request log. *)
Record handler : Type := Handler {
  request_version : string;
  path : string;
  close_connection : bool;
  _headers_buffer : option (list string);
  wfile : list string;
  request_log : list string
}.

(** The class attribute [protocol_version], which [HealthCheckHandler] does
    not override. *)
Definition protocol_version : string := "HTTP/1.0".

Definition crlf : string := String "013"%char (String "010"%char EmptyString).

(** The handler as [parse_request] leaves it: with [protocol_version] below
    1.1 the connection always closes after the response. *)
Definition incoming (version p : string) : handler :=
  Handler version p true None [] [].

(** The override of lines 45-47: [pass]. *)
Definition log_message (fmt : string) (h : handler) : handler := h.

(** [log_request(code)]: it formats a line and hands it to [log_message]. *)
Definition log_request (code : Z) (h : handler) : handler :=
  log_message (String "034"%char ("%s" ++ String "034"%char " %s %s")) h.

(** [self._headers_buffer.append(line)], creating the buffer when the
    attribute is missing. *)
Definition buffer_append (line : string) (h : handler) : handler :=
  Handler (request_version h) (path h) (close_connection h)
          (Some (match _headers_buffer h with
                 | Some b => b ++ [line]
                 | None => [line]
                 end))
          (wfile h) (request_log h).

Definition set_close_connection (b : bool) (h : handler) : handler :=
  Handler (request_version h) (path h) b (_headers_buffer h) (wfile h)
          (request_log h).

(** [self.wfile.write(b)] *)
Definition wfile_write (b : string) (h : handler) : handler :=
  Handler (request_version h) (path h) (close_connection h) (_headers_buffer h)
          (wfile h ++ [b]) (request_log h).

(** Header names and values compare after [lower()]; on the bytes of a
    header this changes the letters A to Z only. *)
Definition lower_ascii (c : ascii) : ascii :=
  let n := nat_of_ascii c in
  if (65 <=? n)%nat && (n <=? 90)%nat then ascii_of_nat (n + 32) else c.

Fixpoint lower (s : string) : string :=
  match s with
  | EmptyString => EmptyString
  | String c s' => String (lower_ascii c) (lower s')
  end.

(** [send_response_only(code)]: nothing for an HTTP/0.9 request, else the
    status line goes to the headers buffer. *)
Definition send_response_only (host : Host) (code : Z) (h : handler) : handler :=
  if String.eqb (request_version h) "HTTP/0.9" then h
  else
    let message := match responses host code with
                   | Some m => m
                   | None => EmptyString
                   end in
    buffer_append (protocol_version ++ " " ++ string_of_Z code ++ " " ++ message ++ crlf) h.

(** [send_header(keyword, value)]: nothing goes to the buffer for an HTTP/0.9
    request; a [Connection] header sets [close_connection] in any case. *)
Definition send_header (keyword value : string) (h : handler) : handler :=
  let h := if String.eqb (request_version h) "HTTP/0.9" then h
           else buffer_append (keyword ++ ": " ++ value ++ crlf) h in
  if String.eqb (lower keyword) "connection" then
    if String.eqb (lower value) "close" then set_close_connection true h
    else if String.eqb (lower value) "keep-alive" then set_close_connection false h
    else h
  else h.

(** [send_response(code)] *)
Definition send_response (host : Host) (code : Z) (h : handler) : handler :=
  let h := log_request code h in
  let h := send_response_only host code h in
  let h := send_header "Server" (version_string host) h in
  send_header "Date" (date_time_string host) h.

(** [flush_headers()]: one write of the joined buffer, when there is one. *)
Definition flush_headers (h : handler) : handler :=
  match _headers_buffer h with
  | Some b =>
      Handler (request_version h) (path h) (close_connection h) (Some [])
              (wfile h ++ [String.concat EmptyString b]) (request_log h)
  | None => h
  end.

(** [end_headers()]: nothing for an HTTP/0.9 request. *)
Definition end_headers (h : handler) : handler :=
  if String.eqb (request_version h) "HTTP/0.9" then h
  else flush_headers (buffer_append crlf h).

(** A string between double quotes. *)
Definition quoted (s : string) : string :=
  String "034"%char (s ++ String "034"%char EmptyString).

(** The bytes literal of line 40. *)
Definition health_body : string :=
  "{" ++ quoted "status" ++ ": " ++ quoted "healthy" ++ ", "
      ++ quoted "bot" ++ ": " ++ quoted "jokers-telegram-bot" ++ "}".

(** [do_GET] (lines 35-43) *)
Definition do_GET (host : Host) (h : handler) : handler :=
  if String.eqb (path h) "/health" then
    let h := send_response host 200 h in
    let h := send_header "Content-type" "application/json" h in
    let h := end_headers h in
    wfile_write health_body h
  else
    let h := send_response host 404 h in
    end_headers h.

(** The two reason phrases [do_GET] can ask for, as the table of the
    standard library has them. *)
Definition standard_phrases (host : Host) : Prop :=
  responses host 200%Z = Some "OK" /\ responses host 404%Z = Some "Not Found".

(** A host as CPython 3.11 presents itself. *)
Definition python311 : Host :=
  {| version_string := "BaseHTTP/0.6 Python/3.11.2";
     date_time_string := "Wed, 04 Nov 2026 08:00:00 GMT";
     responses := fun code =>
                    if Z.eqb code 200 then Some "OK"
                    else if Z.eqb code 404 then Some "Not Found"
                    else None |}.

End Http.

(** ** The platform library as [bot.py] uses it (lines 11-15, 24-28)

    Updates, filters and handlers of [telegram] and [telegram.ext].  The
    filters follow the library's [telegram/ext/filters.py]: a filter applies
    to an update only when the update carries a message, a [MessageFilter]
    looks at [update.effective_message], and [&] and [~] build filters over
    whole updates. *)

Module Telegram.

Inductive entity_type : Type :=
| BOT_COMMAND
| OTHER_ENTITY (name : string).

Record MessageEntity : Type := {
  type_ : entity_type;
  offset : Z;
  length_ : Z
}.

Record Message : Type := {
  text : option string;
  entities : list MessageEntity;
  new_chat_members : list string
}.

Record Update : Type := {
  message : option Message;
  edited_message : option Message;
  channel_post : option Message;
  edited_channel_post : option Message
}.

(** [update.effective_message] *)
Definition effective_message (u : Update) : option Message :=
  match message u with
  | Some m => Some m
  | None =>
      match edited_message u with
      | Some m => Some m
      | None =>
          match channel_post u with
          | Some m => Some m
          | None => edited_channel_post u
          end
      end
  end.

(** The filter expressions [bot.py] writes. *)
Inductive BaseFilter : Type :=
| NEW_CHAT_MEMBERS              (* filters.StatusUpdate.NEW_CHAT_MEMBERS *)
| TEXT                          (* filters.TEXT *)
| COMMAND                       (* filters.COMMAND *)
| EDITED_MESSAGE                (* filters.UpdateType.EDITED_MESSAGE *)
| And (f g : BaseFilter)            (* f & g *)
| Invert (f : BaseFilter).          (* ~f *)

(** [BaseFilter.check_update] *)
Definition carries_message (u : Update) : bool :=
  bool_decide (is_Some (channel_post u))
  || bool_decide (is_Some (message u))
  || bool_decide (is_Some (edited_channel_post u))
  || bool_decide (is_Some (edited_message u)).

(** [bool(message.text)] *)
Definition has_text (m : Message) : bool :=
  match text m with
  | Some s => negb (String.eqb s "")
  | None => false
  end.

(** [filters.COMMAND.filter]: the first entity is a bot command at
    offset 0. *)
Definition starts_with_command (m : Message) : bool :=
  match entities m with
  | [] => false
  | first :: _ =>
      match type_ first with
      | BOT_COMMAND => Z.eqb (offset first) 0
      | OTHER_ENTITY _ => false
      end
  end.

Definition on_effective_message (p : Message -> bool) (u : Update) : bool :=
  match effective_message u with
  | Some m => p m
  | None => false
  end.

Fixpoint check_update (f : BaseFilter) (u : Update) : bool :=
  carries_message u &&
  match f with
  | NEW_CHAT_MEMBERS =>
      on_effective_message
        (fun m => negb (Nat.eqb (length (new_chat_members m)) 0)) u
  | TEXT => on_effective_message has_text u
  | COMMAND => on_effective_message starts_with_command u
  | EDITED_MESSAGE => bool_decide (is_Some (edited_message u))
  | And f g => check_update f u && check_update g u
  | Invert f => negb (check_update f u)
  end.

(** The callbacks imported from [handlers] (lines 24-28). *)
Inductive callback : Type :=
| handle_new_chat_members | start_command | help_command | about_command
| dev_command | handle_message | handle_edited_message | stats_command
| deploy_command | error_handler.

Inductive Handler : Type :=
| CommandHandler (command : string) (cb : callback)
| MessageHandler (f : BaseFilter) (cb : callback).

Record Application : Type := {
  handlers : list Handler;
  error_handlers : list callback
}.

(** The keyword arguments of [Application.run_polling]. *)
Record PollConfig : Type := {
  poll_interval : Q;
  timeout : Z;
  read_timeout : Z;
  write_timeout : Z;
  connect_timeout : Z;
  pool_timeout : Z;
  drop_pending_updates : bool
}.

End Telegram.

Import Telegram.

(** ** The process around the bot *)

Module Process.

Inductive level : Type := INFO | WARNING | ERROR.

(** [HTTPServer((host, port), HealthCheckHandler)] *)
Record HTTPServer : Type := {
  server_address : string * value;
  RequestHandlerClass : string
}.

(** [threading.Thread(target=server.serve_forever, daemon=...)] *)
Record Thread : Type := {
  target_serve_forever : HTTPServer;
  daemon : bool
}.

(** The bot object's two fields and what the process has done so far:
    the servers bound and listening, the threads started, the calls of
    [run_polling], and the log records. *)
Record World : Type := mkWorld {
  application : option Application;
  health_server : option HTTPServer;
  listening : list HTTPServer;
  threads : list Thread;
  polls : list PollConfig;
  log : list (level * string)
}.

(** The threads the interpreter waits for before the process exits: those
    that are not daemonic. *)
Definition joined_at_exit (w : World) : list Thread :=
  List.filter (fun t => negb (daemon t)) (threads w).

(** Between [w] and [w'] threads were only added, and every added thread is
    daemonic. *)
Definition started_only_daemons (w w' : World) : Prop :=
  exists new, threads w' = threads w ++ new /\ Forall (fun t => daemon t = true) new.

(** At most one server is bound, and none while [self.health_server] is
    [None]. *)
Definition one_server (w : World) : Prop :=
  (health_server w = None -> listening w = [])
  /\ (length (listening w) <= 1)%nat.

(** The operations of the libraries that can raise. *)
Inductive op : Type :=
| OpBuild (token : value)
| OpAddHandler (h : Handler)
| OpAddErrorHandler (cb : callback)
| OpHTTPServer (server : HTTPServer)
| OpThreadStart (t : Thread)
| OpRunPolling (cfg : PollConfig).

(** The constants imported from [config] (line 16 and lines 18-23), and the
    behaviour of the environment: [fault o w] is the exception that
    operation [o] raises when it is called in [w], if it raises. *)
Class Env : Type := {
  BOT_TOKEN : value;
  PORT : value;
  HEALTH_CHECK_ENABLED : value;
  fault : op -> World -> option exn
}.

(** Statements: a state and exception monad over the world. *)
Definition M (A : Type) : Type := World -> result A * World.

Definition ret {A} (a : A) : M A := fun w => (Ok a, w).

Definition bind {A B} (m : M A) (k : A -> M B) : M B :=
  fun w =>
    match m w with
    | (Ok a, w') => k a w'
    | (Raise e, w') => (Raise e, w')
    end.

Definition raise {A} (e : exn) : M A := fun w => (Raise e, w).

(** [try: body / except Exception as e: handler e] *)
Definition try_except {A} (body : M A) (handler : exn -> M A) : M A :=
  fun w =>
    match body w with
    | (Ok a, w') => (Ok a, w')
    | (Raise e, w') =>
        if is_Exception e then handler e w' else (Raise e, w')
    end.

Definition when (b : bool) (m : M unit) : M unit :=
  if b then m else ret tt.

Definition get {A} (f : World -> A) : M A := fun w => (Ok (f w), w).

Definition modify (f : World -> World) : M unit := fun w => (Ok tt, f w).

Definition set_application (a : option Application) (w : World) : World :=
  mkWorld a (health_server w) (listening w) (threads w) (polls w) (log w).

Definition set_health_server (s : option HTTPServer) (w : World) : World :=
  mkWorld (application w) s (listening w) (threads w) (polls w) (log w).

Definition add_listening (s : HTTPServer) (w : World) : World :=
  mkWorld (application w) (health_server w) (listening w ++ [s]) (threads w)
          (polls w) (log w).

Definition add_thread (t : Thread) (w : World) : World :=
  mkWorld (application w) (health_server w) (listening w) (threads w ++ [t])
          (polls w) (log w).

Definition add_poll (c : PollConfig) (w : World) : World :=
  mkWorld (application w) (health_server w) (listening w) (threads w)
          (polls w ++ [c]) (log w).

Definition add_log (l : level) (msg : string) (w : World) : World :=
  mkWorld (application w) (health_server w) (listening w) (threads w)
          (polls w) (log w ++ [(l, msg)]).

Definition logger_info (msg : string) : M unit := modify (add_log INFO msg).
Definition logger_warning (msg : string) : M unit := modify (add_log WARNING msg).
Definition logger_error (msg : string) : M unit := modify (add_log ERROR msg).

(** What an operation does when it does not raise.  The handler
    registrations go through [self.application], which must be there. *)
Definition effect (o : op) (w : World) : result World :=
  match o with
  | OpBuild _ => Ok (set_application (Some (Build_Application [] [])) w)
  | OpAddHandler h =>
      match application w with
      | Some app =>
          Ok (set_application
                (Some (Build_Application (handlers app ++ [h]) (error_handlers app))) w)
      | None =>
          Raise (Exn (OtherException "AttributeError")
                     "'NoneType' object has no attribute 'add_handler'")
      end
  | OpAddErrorHandler cb =>
      match application w with
      | Some app =>
          Ok (set_application
                (Some (Build_Application (handlers app) (error_handlers app ++ [cb]))) w)
      | None =>
          Raise (Exn (OtherException "AttributeError")
                     "'NoneType' object has no attribute 'add_error_handler'")
      end
  | OpHTTPServer s => Ok (add_listening s w)
  | OpThreadStart t => Ok (add_thread t w)
  | OpRunPolling c => Ok w
  end.

(** One call into a library: it raises what the environment makes it
    raise, and has its effect otherwise. *)
Definition perform `{Env} (o : op) : M unit :=
  fun w =>
    match fault o w with
    | Some e => (Raise e, w)
    | None =>
        match effect o w with
        | Ok w' => (Ok tt, w')
        | Raise e => (Raise e, w)
        end
    end.

(** A sequence of calls, stopping at the first that raises. *)
Fixpoint perform_all `{Env} (os : list op) : M unit :=
  match os with
  | [] => ret tt
  | o :: os' => bind (perform o) (fun _ => perform_all os')
  end.

(** A statement preserves an observation [f] of the world when [f] reads the
    same before and after it, whether it returns or raises. *)
Definition preserves {A B} (f : World -> B) (m : M A) : Prop :=
  forall w, f (snd (m w)) = f w.

(** A registration or the construction of the client touches
    [self.application] only. *)
Definition client_call (o : op) : Prop :=
  match o with
  | OpBuild _ | OpAddHandler _ | OpAddErrorHandler _ => True
  | _ => False
  end.

End Process.

Import Process.

Declare Scope py_scope.
Delimit Scope py_scope with py.
Notation "x <- m ;; k" := (bind m (fun x => k))
  (at level 100, m at next level, right associativity) : py_scope.
Notation "m ;; k" := (bind m (fun _ => k))
  (at level 100, right associativity) : py_scope.

(** ** [TelegramBot] (lines 49-133) *)

Module TelegramBot.

Section Methods.

Context `{Env}.
Local Open Scope py_scope.

Definition add_handler (h : Handler) : M unit := perform (OpAddHandler h).

Definition add_error_handler (cb : callback) : M unit :=
  perform (OpAddErrorHandler cb).

(** The body of the [try] of [setup_bot] (lines 103-129).  The first
    statement builds the client and assigns it to [self.application]. *)
Definition setup_bot_body : M unit :=
  perform (OpBuild BOT_TOKEN) ;;
  add_handler (CommandHandler "start" start_command) ;;
  add_handler (CommandHandler "help" help_command) ;;
  add_handler (CommandHandler "about" about_command) ;;
  add_handler (CommandHandler "dev" dev_command) ;;
  add_handler (CommandHandler "stats" stats_command) ;;
  add_handler (CommandHandler "deploy" deploy_command) ;;
  add_handler (MessageHandler NEW_CHAT_MEMBERS handle_new_chat_members) ;;
  add_handler (MessageHandler (And TEXT (Invert COMMAND)) handle_message) ;;
  add_handler (MessageHandler EDITED_MESSAGE handle_edited_message) ;;
  add_error_handler error_handler ;;
  logger_info "Bot handlers configured successfully".

(** [setup_bot] (lines 99-133) *)
Definition setup_bot : M unit :=
  try_except setup_bot_body
    (fun e => logger_error ("Failed to setup bot: " ++ exn_msg e) ;; raise e).

(** The library calls of [setup_bot_body], in the order of the source:
    the client construction, then the ten registrations. *)
Definition setup_calls : list op :=
  [ OpBuild BOT_TOKEN;
    OpAddHandler (CommandHandler "start" start_command);
    OpAddHandler (CommandHandler "help" help_command);
    OpAddHandler (CommandHandler "about" about_command);
    OpAddHandler (CommandHandler "dev" dev_command);
    OpAddHandler (CommandHandler "stats" stats_command);
    OpAddHandler (CommandHandler "deploy" deploy_command);
    OpAddHandler (MessageHandler NEW_CHAT_MEMBERS handle_new_chat_members);
    OpAddHandler (MessageHandler (And TEXT (Invert COMMAND)) handle_message);
    OpAddHandler (MessageHandler EDITED_MESSAGE handle_edited_message);
    OpAddErrorHandler error_handler ].

(** [setup_health_server] (lines 60-68) *)
Definition setup_health_server : M unit :=
  try_except
    ( let server := {| server_address := ("0.0.0.0", PORT);
                       RequestHandlerClass := "HealthCheckHandler" |} in
      perform (OpHTTPServer server) ;;
      modify (set_health_server (Some server)) ;;
      hs <- get health_server ;;
      match hs with
      | Some s =>
          perform (OpThreadStart {| target_serve_forever := s; daemon := true |})
      | None =>
          raise (Exn (OtherException "AttributeError")
                     "'NoneType' object has no attribute 'serve_forever'")
      end ;;
      logger_info ("Health check server started on port " ++ str PORT) )
    (fun e => logger_warning ("Could not start health server: " ++ exn_msg e)).

(** [self.application.run_polling(...)]: the call is made, and returns or
    raises as the environment decides. *)
Definition run_polling (cfg : PollConfig) : M unit :=
  fun w =>
    match fault (OpRunPolling cfg) w with
    | Some e => (Raise e, add_poll cfg w)
    | None => (Ok tt, add_poll cfg w)
    end.

(** [not x] for a field that holds [None] or an object. *)
Definition not_ {A} (x : option A) : bool :=
  match x with
  | Some _ => false
  | None => true
  end.

(** The three log records of lines 81-83. *)
Definition log_startup : M unit :=
  logger_info "Starting Joker's Telegram Bot..." ;;
  logger_info ("Health check enabled: " ++ str HEALTH_CHECK_ENABLED) ;;
  logger_info ("Port configured: " ++ str PORT).

(** [start] (lines 70-97) *)
Definition start : M unit :=
  try_except
    ( app <- get application ;;
      when (not_ app)
           (raise (Exn RuntimeError "Bot application not properly initialized")) ;;
      hs <- get health_server ;;
      when (truthy HEALTH_CHECK_ENABLED && not_ hs) setup_health_server ;;
      log_startup ;;
      run_polling {| poll_interval := 1.0;
                     timeout := 10;
                     read_timeout := 10;
                     write_timeout := 10;
                     connect_timeout := 10;
                     pool_timeout := 10;
                     drop_pending_updates := true |} )
    (fun e => logger_error ("Error starting bot: " ++ exn_msg e) ;; raise e).

(** [__init__] (lines 52-58) *)
Definition __init__ : M unit :=
  modify (set_application None) ;;
  modify (set_health_server None) ;;
  setup_bot ;;
  when (truthy HEALTH_CHECK_ENABLED) setup_health_server.

(** Modelled from the spec: the process entry point, which is not part of
    [bot.py].  It constructs the bot and, when the constructor returns,
    calls [start] on it (section 2, control flow; section 4.4). *)
Definition run_bot : M unit :=
  __init__ ;; start.

(** The world after [n] calls of [start] in a row, whether they return or
    raise. *)
Fixpoint after_starts (n : nat) (w : World) : World :=
  match n with
  | O => w
  | S n' => after_starts n' (snd (start w))
  end.

(** The server line 63 constructs, the thread line 64 constructs for it, and
    the keyword arguments of lines 86-92, as the statements below name them. *)
Definition bound_server : HTTPServer :=
  {| server_address := ("0.0.0.0", PORT);
     RequestHandlerClass := "HealthCheckHandler" |}.

Definition health_thread : Thread :=
  {| target_serve_forever := bound_server; daemon := true |}.

Definition polling_arguments : PollConfig :=
  {| poll_interval := 1.0;
     timeout := 10;
     read_timeout := 10;
     write_timeout := 10;
     connect_timeout := 10;
     pool_timeout := 10;
     drop_pending_updates := true |}.

(** The handlers of [start] and [setup_health_server] (lines 95-97, 67-68). *)
Definition start_failed (e : exn) : M unit :=
  logger_error ("Error starting bot: " ++ exn_msg e) ;; raise e.

Definition health_failed (e : exn) : M unit :=
  logger_warning ("Could not start health server: " ++ exn_msg e).

(** The world in which [__init__] calls [setup_bot]. *)
Definition reset_fields (w : World) : World :=
  set_health_server None (set_application None w).

(** The startup log of [start] after a health-server setup that was caught
    with message [msg]. *)
Definition logged_startup (msg : string) (w : World) : World :=
  snd (log_startup (add_log WARNING ("Could not start health server: " ++ msg) w)).

End Methods.

End TelegramBot.

Import TelegramBot.

(** ** Concrete environments *)

Module Scenario.

(** A process that has just started: no bot, nothing bound, nothing logged. *)
Definition fresh : World := mkWorld None None [] [] [] [].

Definition no_fault (o : op) (w : World) : option exn := None.

(** The configured port is taken: binding raises [OSError]. *)
Definition bind_fails (o : op) (w : World) : option exn :=
  match o with
  | OpHTTPServer _ => Some (Exn OSError "[Errno 98] Address already in use")
  | _ => None
  end.

(** The registration of the [/help] command is refused. *)
Definition help_refused (o : op) (w : World) : option exn :=
  match o with
  | OpAddHandler (CommandHandler "help" _) =>
      Some (Exn ValueError "Command `help` is not a valid bot command")
  | _ => None
  end.

Definition on_render : Env :=
  {| BOT_TOKEN := VStr "123456:TOKEN"; PORT := VInt 10000;
     HEALTH_CHECK_ENABLED := VBool true; fault := no_fault |}.

Definition local_run : Env :=
  {| BOT_TOKEN := VStr "123456:TOKEN"; PORT := VInt 10000;
     HEALTH_CHECK_ENABLED := VBool false; fault := no_fault |}.

Definition port_in_use : Env :=
  {| BOT_TOKEN := VStr "123456:TOKEN"; PORT := VInt 10000;
     HEALTH_CHECK_ENABLED := VBool true; fault := bind_fails |}.

Definition bad_registration : Env :=
  {| BOT_TOKEN := VStr "123456:TOKEN"; PORT := VInt 10000;
     HEALTH_CHECK_ENABLED := VBool true; fault := help_refused |}.

(** A plain text message, and the update the platform sends when a user
    edits it. *)
Definition hello : Message :=
  {| text := Some "hello"; entities := []; new_chat_members := [] |}.

Definition new_hello : Update :=
  {| message := Some hello; edited_message := None;
     channel_post := None; edited_channel_post := None |}.

Definition edited_hello : Update :=
  {| message := None; edited_message := Some hello;
     channel_post := None; edited_channel_post := None |}.

End Scenario.

(** ** The message-shape handlers of [setup_bot] (lines 113-124) *)

Module Dispatch.

(** The filters of the three [MessageHandler]s, in registration order. *)
Definition message_filters : list BaseFilter :=
  [ NEW_CHAT_MEMBERS; And TEXT (Invert COMMAND); EDITED_MESSAGE ].

(** How many of them match an update. *)
Definition matching (u : Update) : nat :=
  length (List.filter (fun f => check_update f u) message_filters).

(** The three shapes the filters look for: the message of the update lists
    new chat members; it has a text that does not start with a bot command;
    the update is an edited message. *)
Definition notice (u : Update) : bool :=
  on_effective_message
    (fun m => negb (Nat.eqb (length (new_chat_members m)) 0)) u.

Definition plain_text (u : Update) : bool :=
  on_effective_message (fun m => has_text m && negb (starts_with_command m)) u.

Definition edited (u : Update) : bool :=
  bool_decide (is_Some (edited_message u)).

(** The command [/start], and the update the platform sends when a user
    edits a message into it. *)
Definition slash_start : Message :=
  {| text := Some "/start";
     entities := [ {| type_ := BOT_COMMAND; offset := 0; length_ := 6 |} ];
     new_chat_members := [] |}.

Definition edited_start : Update :=
  {| message := None; edited_message := Some slash_start;
     channel_post := None; edited_channel_post := None |}.

End Dispatch.

(** ** Environments with one failing call *)

Module Faults.

(** The process is interrupted while the health server's socket is bound. *)
Definition interrupt_on_bind (o : op) (w : World) : option exn :=
  match o with
  | OpHTTPServer _ => Some (Exn KeyboardInterrupt "")
  | _ => None
  end.

(** The interpreter cannot start another thread. *)
Definition no_new_thread (o : op) (w : World) : option exn :=
  match o with
  | OpThreadStart _ => Some (Exn RuntimeError "can't start new thread")
  | _ => None
  end.

(** The poll loop gives up on the network. *)
Definition polling_breaks (o : op) (w : World) : option exn :=
  match o with
  | OpRunPolling _ => Some (Exn (OtherException "NetworkError") "Bad Gateway")
  | _ => None
  end.

Definition interrupted : Env :=
  {| BOT_TOKEN := VStr "123456:TOKEN"; PORT := VInt 10000;
     HEALTH_CHECK_ENABLED := VBool true; fault := interrupt_on_bind |}.

Definition thread_limit : Env :=
  {| BOT_TOKEN := VStr "123456:TOKEN"; PORT := VInt 10000;
     HEALTH_CHECK_ENABLED := VBool true; fault := no_new_thread |}.

Definition network_down : Env :=
  {| BOT_TOKEN := VStr "123456:TOKEN"; PORT := VInt 10000;
     HEALTH_CHECK_ENABLED := VBool true; fault := polling_breaks |}.

(** The client of a bot whose handlers are all registered. *)
Definition configured_client : Application :=
  {| handlers := [ CommandHandler "start" start_command;
                   CommandHandler "help" help_command;
                   CommandHandler "about" about_command;
                   CommandHandler "dev" dev_command;
                   CommandHandler "stats" stats_command;
                   CommandHandler "deploy" deploy_command;
                   MessageHandler NEW_CHAT_MEMBERS handle_new_chat_members;
                   MessageHandler (And TEXT (Invert COMMAND)) handle_message;
                   MessageHandler EDITED_MESSAGE handle_edited_message ];
     error_handlers := [ error_handler ] |}.

(** A bot that has been set up, before any health server. *)
Definition configured : World :=
  mkWorld (Some configured_client) None [] [] [] [].

End Faults.

(** * Properties *)

(** ** The health-check flag *)

Section ConfigProperties.

Import Config.

Lemma getenv_truthy (environ : gmap string string) (k : string) :
  truthy (getenv environ k) = marker_nonempty environ k.
Proof.
  unfold getenv, marker_nonempty.
  destruct (environ !! k); reflexivity.
Qed.

Lemma or_truthy (a b : value) : truthy (or_ a b) = truthy a || truthy b.
Proof.
  unfold or_. destruct (truthy a) eqn:Ha; simpl; [exact Ha | reflexivity].
Qed.

(** C8, as stated, fails: with no explicit value and [RENDER] set to the
    empty string a marker is present, and the flag is false. *)
Lemma flag_ignores_empty_marker :
  let environ : gmap string string := {[ "RENDER" := "" ]} in
  let config : gmap string value := ∅ in
  config !! "HEALTH_CHECK_ENABLED" = None
  /\ marker_present environ = true
  /\ HEALTH_CHECK_ENABLED config environ = Ok (VBool false).
Proof. vm_compute. repeat split. Qed.

(** C8 (amended): the flag is resolved with a fixed precedence.  An explicit
    value in [config] wins; with none, the flag is true exactly when
    [RENDER] or [RENDER_SERVICE_ID] is set to a non-empty string; with
    neither variable set it is false. *)
Theorem flag_precedence (config : gmap string value) (environ : gmap string string) :
  (forall v, config !! "HEALTH_CHECK_ENABLED" = Some v ->
             HEALTH_CHECK_ENABLED config environ = Ok v)
  /\ (config !! "HEALTH_CHECK_ENABLED" = None ->
      HEALTH_CHECK_ENABLED config environ =
        Ok (VBool (marker_nonempty environ "RENDER"
                   || marker_nonempty environ "RENDER_SERVICE_ID")))
  /\ (config !! "HEALTH_CHECK_ENABLED" = None ->
      environ !! "RENDER" = None ->
      environ !! "RENDER_SERVICE_ID" = None ->
      HEALTH_CHECK_ENABLED config environ = Ok (VBool false)).
Proof.
  assert (Hnone : config !! "HEALTH_CHECK_ENABLED" = None ->
            HEALTH_CHECK_ENABLED config environ =
              Ok (VBool (marker_nonempty environ "RENDER"
                         || marker_nonempty environ "RENDER_SERVICE_ID"))).
  { intros Hc. unfold HEALTH_CHECK_ENABLED, import_from_config.
    rewrite Hc. cbn [is_ImportError exn_cls].
    now rewrite or_truthy, !getenv_truthy. }
  split; [| split].
  - intros v Hv. unfold HEALTH_CHECK_ENABLED, import_from_config.
    now rewrite Hv.
  - exact Hnone.
  - intros Hc Hr Hs. rewrite (Hnone Hc).
    unfold marker_nonempty. now rewrite Hr, Hs.
Qed.

Lemma flag_precedence_witness :
  HEALTH_CHECK_ENABLED {[ "HEALTH_CHECK_ENABLED" := VBool false ]} {[ "RENDER" := "true" ]}
    = Ok (VBool false)
  /\ HEALTH_CHECK_ENABLED ∅ {[ "RENDER_SERVICE_ID" := "srv-1" ]}
     = Ok (VBool (marker_nonempty {[ "RENDER_SERVICE_ID" := "srv-1" ]} "RENDER"
                  || marker_nonempty {[ "RENDER_SERVICE_ID" := "srv-1" ]}
                                     "RENDER_SERVICE_ID"))
  /\ HEALTH_CHECK_ENABLED ∅ ∅ = Ok (VBool false).
Proof.
  split; [| split].
  - apply (proj1 (flag_precedence {[ "HEALTH_CHECK_ENABLED" := VBool false ]}
                                  {[ "RENDER" := "true" ]})).
    vm_compute. reflexivity.
  - apply (proj1 (proj2 (flag_precedence ∅ {[ "RENDER_SERVICE_ID" := "srv-1" ]}))).
    vm_compute. reflexivity.
  - apply (proj2 (proj2 (flag_precedence ∅ ∅))); vm_compute; reflexivity.
Defined.

End ConfigProperties.

(** ** The health responder *)

Section HealthResponder.

Import Http.

Variable host : Host.

Lemma append_assoc (a b c : string) : ((a ++ b) ++ c = a ++ (b ++ c))%string.
Proof.
  induction a as [| x a IH]; [reflexivity |].
  change (String x ((a ++ b) ++ c) = String x (a ++ (b ++ c)))%string.
  now f_equal.
Qed.

(** The body literal of line 40, byte for byte. *)
Lemma health_body_bytes :
  map nat_of_ascii (list_ascii_of_string health_body) =
    [123; 34; 115; 116; 97; 116; 117; 115; 34; 58; 32; 34; 104; 101; 97; 108;
     116; 104; 121; 34; 44; 32; 34; 98; 111; 116; 34; 58; 32; 34; 106; 111;
     107; 101; 114; 115; 45; 116; 101; 108; 101; 103; 114; 97; 109; 45; 98;
     111; 116; 34; 125]%nat.
Proof. vm_compute. reflexivity. Qed.

(** A header other than [Connection] only goes to the buffer. *)
Lemma send_header_plain (k v : string) (h : handler) :
  String.eqb (lower k) "connection" = false ->
  send_header k v h =
    if String.eqb (request_version h) "HTTP/0.9" then h
    else buffer_append (k ++ ": " ++ v ++ crlf) h.
Proof. intros Hk. unfold send_header. now rewrite Hk. Qed.

(** An HTTP/0.9 request: no status line, no header, no blank line. *)
Lemma do_GET_simple_request (p : string) :
  do_GET host (incoming "HTTP/0.9" p) =
    if String.eqb p "/health"
    then Handler "HTTP/0.9" p true None [health_body] []
    else Handler "HTTP/0.9" p true None [] [].
Proof.
  unfold do_GET, send_response. rewrite !send_header_plain by reflexivity.
  cbn [path incoming].
  destruct (String.eqb p "/health"); reflexivity.
Qed.

(** A request with a version: the status line and the headers are buffered
    and written in one piece when the headers end. *)
Lemma do_GET_full_request (v p : string) :
  v <> "HTTP/0.9" ->
  do_GET host (incoming v p) =
    if String.eqb p "/health"
    then
      Handler v p true (Some [])
        [ String.concat ""
            [ ("HTTP/1.0 200 "
               ++ match responses host 200%Z with Some m => m | None => "" end
               ++ crlf)%string;
              ("Server: " ++ version_string host ++ crlf)%string;
              ("Date: " ++ date_time_string host ++ crlf)%string;
              ("Content-type: application/json" ++ crlf)%string;
              crlf ];
          health_body ] []
    else
      Handler v p true (Some [])
        [ String.concat ""
            [ ("HTTP/1.0 404 "
               ++ match responses host 404%Z with Some m => m | None => "" end
               ++ crlf)%string;
              ("Server: " ++ version_string host ++ crlf)%string;
              ("Date: " ++ date_time_string host ++ crlf)%string;
              crlf ] ] [].
Proof.
  intros Hv. apply String.eqb_neq in Hv.
  unfold do_GET, send_response. rewrite !send_header_plain by reflexivity.
  unfold send_response_only, end_headers, log_request, log_message.
  cbn [path incoming].
  destruct (String.eqb p "/health");
    repeat (cbn [request_version buffer_append incoming _headers_buffer
                 close_connection wfile request_log path flush_headers
                 wfile_write app];
            rewrite ?Hv);
    reflexivity.
Qed.

(** The bytes written for [/health] and for another path, for a request with
    a version and the standard reason phrases. *)
Lemma found_bytes (v : string) :
  standard_phrases host -> v <> "HTTP/0.9" ->
  wfile (do_GET host (incoming v "/health")) =
    [ ("HTTP/1.0 200 OK" ++ crlf
       ++ "Server: " ++ version_string host ++ crlf
       ++ "Date: " ++ date_time_string host ++ crlf
       ++ "Content-type: application/json" ++ crlf
       ++ crlf)%string;
      health_body ].
Proof.
  intros [Hok _] Hv. rewrite (do_GET_full_request v _ Hv), Hok.
  cbn [String.eqb Ascii.eqb Bool.eqb andb wfile String.concat].
  apply (f_equal2 (fun a b => [a; b])); [| reflexivity].
  unfold crlf. rewrite ?append_assoc. cbn [append].
  rewrite ?append_assoc. reflexivity.
Qed.

Lemma missing_bytes (v p : string) :
  standard_phrases host -> v <> "HTTP/0.9" -> p <> "/health" ->
  wfile (do_GET host (incoming v p)) =
    [ ("HTTP/1.0 404 Not Found" ++ crlf
       ++ "Server: " ++ version_string host ++ crlf
       ++ "Date: " ++ date_time_string host ++ crlf
       ++ crlf)%string ].
Proof.
  intros [_ Hnf] Hv Hp. apply String.eqb_neq in Hp.
  rewrite (do_GET_full_request v _ Hv), Hp, Hnf.
  cbn [wfile String.concat].
  apply (f_equal (fun a => [a])).
  unfold crlf. rewrite ?append_assoc. cbn [append].
  rewrite ?append_assoc. reflexivity.
Qed.

(** C1, as stated, fails: a GET sent as an HTTP/0.9 request (a request line
    without a version) for [/health] is answered with the body alone, with
    no status line and no header before it. *)
Lemma simple_request_gets_no_status :
  let q := String "034"%char EmptyString in
  wfile (do_GET python311 (incoming "HTTP/0.9" "/health"))
  = [ ("{" ++ q ++ "status" ++ q ++ ": " ++ q ++ "healthy" ++ q ++ ", "
       ++ q ++ "bot" ++ q ++ ": " ++ q ++ "jokers-telegram-bot" ++ q ++ "}")%string ]
  /\ _headers_buffer (do_GET python311 (incoming "HTTP/0.9" "/health")) = None
  /\ wfile (do_GET python311 (incoming "HTTP/0.9" "/nowhere")) = [].
Proof. repeat split. Qed.

(** C1 (amended): for a GET whose request line carries a version, the path
    [/health] is answered with the status line [HTTP/1.0 200 OK], the
    headers [Server], [Date] and [Content-type: application/json], the blank
    line, and then exactly the body of line 40; any other path is answered
    with the status line [HTTP/1.0 404 Not Found], the headers [Server] and
    [Date], the blank line and no body.  For an HTTP/0.9 request the answer
    is the body alone for [/health] and nothing at all for another path.
    In every case nothing stays buffered, the connection closes after the
    response and nothing is logged. *)
Theorem do_GET_contract (v p : string) :
  let r := do_GET host (incoming v p) in
  let q := String "034"%char EmptyString in
  let eol := String "013"%char (String "010"%char EmptyString) in
  let body := ("{" ++ q ++ "status" ++ q ++ ": " ++ q ++ "healthy" ++ q ++ ", "
               ++ q ++ "bot" ++ q ++ ": " ++ q ++ "jokers-telegram-bot" ++ q
               ++ "}")%string in
  (standard_phrases host -> v <> "HTTP/0.9" -> p = "/health" ->
     wfile r =
       [ ("HTTP/1.0 200 OK" ++ eol
          ++ "Server: " ++ version_string host ++ eol
          ++ "Date: " ++ date_time_string host ++ eol
          ++ "Content-type: application/json" ++ eol
          ++ eol)%string;
         body ])
  /\ (standard_phrases host -> v <> "HTTP/0.9" -> p <> "/health" ->
     wfile r =
       [ ("HTTP/1.0 404 Not Found" ++ eol
          ++ "Server: " ++ version_string host ++ eol
          ++ "Date: " ++ date_time_string host ++ eol
          ++ eol)%string ])
  /\ (v = "HTTP/0.9" -> p = "/health" -> wfile r = [body])
  /\ (v = "HTTP/0.9" -> p <> "/health" -> wfile r = [])
  /\ (_headers_buffer r = None \/ _headers_buffer r = Some [])
  /\ close_connection r = true
  /\ request_log r = [].
Proof.
  cbn zeta.
  split; [| split; [| split; [| split]]].
  - intros Hstd Hv ->. exact (found_bytes v Hstd Hv).
  - intros Hstd Hv Hp. exact (missing_bytes v p Hstd Hv Hp).
  - intros -> ->. rewrite do_GET_simple_request. reflexivity.
  - intros -> Hp. apply String.eqb_neq in Hp.
    rewrite do_GET_simple_request, Hp. reflexivity.
  - destruct (String.eqb_spec v "HTTP/0.9") as [-> | Hv].
    + rewrite do_GET_simple_request.
      destruct (String.eqb p "/health"); cbn; repeat split; now left.
    + rewrite (do_GET_full_request v p Hv).
      destruct (String.eqb p "/health"); cbn; repeat split; now right.
Qed.

End HealthResponder.

Lemma do_GET_contract_witness :
  let q := String "034"%char EmptyString in
  let eol := String "013"%char (String "010"%char EmptyString) in
  Http.wfile (Http.do_GET Http.python311 (Http.incoming "HTTP/1.1" "/health"))
  = [ ("HTTP/1.0 200 OK" ++ eol
       ++ "Server: BaseHTTP/0.6 Python/3.11.2" ++ eol
       ++ "Date: Wed, 04 Nov 2026 08:00:00 GMT" ++ eol
       ++ "Content-type: application/json" ++ eol
       ++ eol)%string;
      ("{" ++ q ++ "status" ++ q ++ ": " ++ q ++ "healthy" ++ q ++ ", "
       ++ q ++ "bot" ++ q ++ ": " ++ q ++ "jokers-telegram-bot" ++ q ++ "}")%string ]
  /\ Http.wfile (Http.do_GET Http.python311 (Http.incoming "HTTP/1.1" "/"))
     = [ ("HTTP/1.0 404 Not Found" ++ eol
          ++ "Server: BaseHTTP/0.6 Python/3.11.2" ++ eol
          ++ "Date: Wed, 04 Nov 2026 08:00:00 GMT" ++ eol
          ++ eol)%string ]
  /\ Http.wfile (Http.do_GET Http.python311 (Http.incoming "HTTP/0.9" "/health"))
     = [ ("{" ++ q ++ "status" ++ q ++ ": " ++ q ++ "healthy" ++ q ++ ", "
          ++ q ++ "bot" ++ q ++ ": " ++ q ++ "jokers-telegram-bot" ++ q ++ "}")%string ]
  /\ Http.wfile (Http.do_GET Http.python311 (Http.incoming "HTTP/0.9" "/")) = [].
Proof.
  cbn zeta.
  pose proof (do_GET_contract Http.python311 "HTTP/1.1" "/health")
    as (Hok & _ & _ & _ & _).
  pose proof (do_GET_contract Http.python311 "HTTP/1.1" "/")
    as (_ & Hmissing & _ & _ & _).
  pose proof (do_GET_contract Http.python311 "HTTP/0.9" "/health")
    as (_ & _ & Hsimple & _ & _).
  pose proof (do_GET_contract Http.python311 "HTTP/0.9" "/")
    as (_ & _ & _ & Hnothing & _).
  split; [| split; [| split]].
  - apply Hok; [split; reflexivity | discriminate | reflexivity].
  - apply Hmissing; [split; reflexivity | discriminate | discriminate].
  - apply Hsimple; reflexivity.
  - apply Hnothing; [reflexivity | discriminate].
Defined.

(** ** Statements and what they leave alone *)

Section Frames.

Context `{Env}.

Lemma preserves_ret {A B} (f : World -> B) (a : A) : preserves f (ret a).
Proof. intros w. reflexivity. Qed.

Lemma preserves_raise {A B} (f : World -> B) (e : exn) :
  preserves f (raise (A := A) e).
Proof. intros w. reflexivity. Qed.

Lemma preserves_get {A B} (f : World -> B) (g : World -> A) :
  preserves f (get g).
Proof. intros w. reflexivity. Qed.

Lemma preserves_modify {B} (f : World -> B) (g : World -> World) :
  (forall w, f (g w) = f w) -> preserves f (modify g).
Proof. intros Hg w. apply Hg. Qed.

Lemma preserves_bind {A C B} (f : World -> B) (m : M A) (k : A -> M C) :
  preserves f m -> (forall a, preserves f (k a)) -> preserves f (bind m k).
Proof.
  intros Hm Hk w. unfold bind. specialize (Hm w).
  destruct (m w) as [[a | e] w']; cbn [snd] in *.
  - now rewrite Hk.
  - exact Hm.
Qed.

Lemma preserves_try_except {A B} (f : World -> B) (m : M A) (h : exn -> M A) :
  preserves f m -> (forall e, preserves f (h e)) -> preserves f (try_except m h).
Proof.
  intros Hm Hh w. unfold try_except. specialize (Hm w).
  destruct (m w) as [[a | e] w']; cbn [snd] in *; [exact Hm |].
  destruct (is_Exception e); cbn [snd]; [now rewrite Hh | exact Hm].
Qed.

Lemma preserves_when {B} (f : World -> B) (b : bool) (m : M unit) :
  preserves f m -> preserves f (when b m).
Proof. intros Hm. destruct b; [exact Hm | apply preserves_ret]. Qed.

Lemma preserves_perform {B} (f : World -> B) (o : op) :
  (forall w w', effect o w = Ok w' -> f w' = f w) -> preserves f (perform o).
Proof.
  intros Ho w. unfold perform.
  destruct (fault o w); [reflexivity |].
  destruct (effect o w) eqn:He; cbn [snd]; [now apply Ho | reflexivity].
Qed.

Lemma preserves_run_polling {B} (f : World -> B) (cfg : PollConfig) :
  (forall w, f (add_poll cfg w) = f w) -> preserves f (run_polling cfg).
Proof.
  intros Hf w. unfold run_polling.
  destruct (fault (OpRunPolling cfg) w); apply Hf.
Qed.

Lemma effect_client_call (o : op) (w w' : World) :
  client_call o -> effect o w = Ok w' ->
  health_server w' = health_server w /\ listening w' = listening w
  /\ threads w' = threads w /\ polls w' = polls w /\ log w' = log w.
Proof.
  destruct o; cbn [client_call effect]; try contradiction; intros _.
  - intros [= <-]. repeat split.
  - destruct (application w); intros [= <-]. repeat split.
  - destruct (application w); intros [= <-]. repeat split.
Qed.

End Frames.

Create HintDb frame.

#[global] Hint Resolve preserves_ret preserves_raise preserves_get preserves_bind
  preserves_try_except preserves_when : frame.

(** [frame] proves that a statement built from the combinators preserves an
    observation, leaving the library calls to [tac]. *)
Ltac frame_with tac :=
  repeat first
    [ apply preserves_bind; [| intros ? ]
    | apply preserves_try_except; [| intros ? ]
    | apply preserves_when
    | apply preserves_ret
    | apply preserves_raise
    | apply preserves_get
    | apply preserves_modify; intros ?; reflexivity
    | apply preserves_run_polling; intros ?; reflexivity
    | apply preserves_perform; tac ].

(** ** [setup_bot] *)

Section SetupBot.

Context `{Env}.

Lemma bind_ext {A B} (m : M A) (k k' : A -> M B) (w : World) :
  (forall a w', k a w' = k' a w') -> bind m k w = bind m k' w.
Proof.
  intros Hk. unfold bind. destruct (m w) as [[a | e] w']; [apply Hk | reflexivity].
Qed.

Lemma bind_assoc {A B C} (m : M A) (k : A -> M B) (k' : B -> M C) (w : World) :
  bind (bind m k) k' w = bind m (fun a => bind (k a) k') w.
Proof.
  unfold bind. destruct (m w) as [[a | e] w']; reflexivity.
Qed.

Lemma perform_all_app (pre rest : list op) (w : World) :
  perform_all (pre ++ rest) w = bind (perform_all pre) (fun _ => perform_all rest) w.
Proof.
  revert w. induction pre as [| o pre IH]; intros w.
  - reflexivity.
  - cbn [app perform_all]. rewrite bind_assoc.
    apply bind_ext. intros _ w'. apply IH.
Qed.

(** A call that raises leaves the world as it was. *)
Lemma perform_raises (o : op) (w : World) (e : exn) :
  fst (perform o w) = Raise e -> perform o w = (Raise e, w).
Proof.
  unfold perform. destruct (fault o w) as [e' |].
  - cbn [fst]. now intros [= ->].
  - destruct (effect o w) as [w' | e']; cbn [fst]; [discriminate | now intros [= ->]].
Qed.

(** The first call that raises ends the sequence with its exception. *)
Lemma perform_all_raises (pre post : list op) (o : op) (e : exn) (w w1 : World) :
  perform_all pre w = (Ok tt, w1) ->
  fst (perform o w1) = Raise e ->
  perform_all (pre ++ o :: post) w = (Raise e, w1).
Proof.
  intros Hpre Ho. rewrite perform_all_app. unfold bind at 1. rewrite Hpre.
  cbn [perform_all]. unfold bind. now rewrite (perform_raises o w1 e Ho).
Qed.

(** The body of [setup_bot] is its library calls in order, then the log
    record of line 129. *)
Lemma setup_bot_body_calls (w : World) :
  setup_bot_body w =
    bind (perform_all setup_calls)
         (fun _ => logger_info "Bot handlers configured successfully") w.
Proof.
  unfold setup_bot_body, setup_calls, add_handler, add_error_handler.
  cbn [perform_all].
  repeat (rewrite bind_assoc; apply bind_ext; intros _ ?).
  reflexivity.
Qed.

Lemma perform_all_preserves {B} (f : World -> B) (os : list op) :
  (forall o w w', In o os -> effect o w = Ok w' -> f w' = f w) ->
  preserves f (perform_all os).
Proof.
  induction os as [| o os IH]; intros Hos.
  - apply preserves_ret.
  - cbn [perform_all]. apply preserves_bind.
    + apply preserves_perform. intros w w'. apply Hos. now left.
    + intros _. apply IH. intros o' w w' Hin. apply Hos. now right.
Qed.

Lemma setup_calls_client (o : op) : In o setup_calls -> client_call o.
Proof.
  unfold setup_calls. cbn [In].
  intros Hin. repeat (destruct Hin as [<- | Hin]; [exact I |]). contradiction.
Qed.

(** [setup_bot] opens no socket, starts no thread and never polls. *)
Lemma setup_bot_frame (w : World) :
  polls (snd (setup_bot w)) = polls w
  /\ listening (snd (setup_bot w)) = listening w
  /\ threads (snd (setup_bot w)) = threads w
  /\ health_server (snd (setup_bot w)) = health_server w.
Proof.
  assert (Hcall : forall B (f : World -> B),
            (forall o w w', client_call o -> effect o w = Ok w' -> f w' = f w) ->
            (forall l msg w, f (add_log l msg w) = f w) ->
            preserves f setup_bot).
  { intros B f Hf Hlog. unfold setup_bot, setup_bot_body, add_handler,
      add_error_handler, logger_info, logger_error.
    frame_with ltac:(intros ? ?; apply Hf; exact I);
      apply preserves_modify; intros ?; apply Hlog. }
  repeat split; apply Hcall; try reflexivity;
    intros o w0 w' Hc He; now destruct (effect_client_call o w0 w' Hc He) as (? & ? & ? & ? & ?).
Qed.

(** When [setup_bot] returns, the client holds the nine handlers in the
    order of the source and the one error handler. *)
Lemma setup_bot_registers (w w' : World) :
  setup_bot w = (Ok tt, w') ->
  application w' =
    Some {| handlers := [ CommandHandler "start" start_command;
                          CommandHandler "help" help_command;
                          CommandHandler "about" about_command;
                          CommandHandler "dev" dev_command;
                          CommandHandler "stats" stats_command;
                          CommandHandler "deploy" deploy_command;
                          MessageHandler NEW_CHAT_MEMBERS handle_new_chat_members;
                          MessageHandler (And TEXT (Invert COMMAND)) handle_message;
                          MessageHandler EDITED_MESSAGE handle_edited_message ];
            error_handlers := [ error_handler ] |}.
Proof.
  unfold setup_bot, try_except, setup_bot_body, add_handler, add_error_handler.
  unfold bind at 1. unfold perform at 1.
  destruct (fault _ w); [cbn; destruct (is_Exception _); cbn; discriminate |].
  cbn [effect].
  repeat (unfold bind at 1; unfold perform at 1;
          match goal with
          | |- context [fault ?o ?w0] => destruct (fault o w0)
          end;
          [cbn; destruct (is_Exception _); cbn; discriminate |];
          cbn [effect application set_application handlers error_handlers app]).
  cbn. now intros [= <-].
Qed.

End SetupBot.

(** ** The constructor and the start-up sequence *)

Section Startup.

Context `{Env}.

Lemma init_unfold (w0 : World) :
  __init__ w0 =
    bind setup_bot (fun _ => when (truthy HEALTH_CHECK_ENABLED) setup_health_server)
         (reset_fields w0).
Proof. reflexivity. Qed.

Lemma setup_bot_raises (w w1 : World) (e : exn) :
  setup_bot_body w = (Raise e, w1) ->
  fst (setup_bot w) = Raise e.
Proof.
  intros Hbody. unfold setup_bot, try_except. rewrite Hbody.
  destruct (is_Exception e); reflexivity.
Qed.

Lemma init_raises (w0 : World) (e : exn) :
  fst (setup_bot (reset_fields w0)) = Raise e ->
  __init__ w0 = (Raise e, snd (setup_bot (reset_fields w0))).
Proof.
  intros Hs. rewrite init_unfold. unfold bind.
  destruct (setup_bot (reset_fields w0)) as [[[] | e'] w']; cbn [fst snd] in *;
    [discriminate | congruence].
Qed.

(** C2: when the construction of the client or any of the registrations
    raises, [setup_bot] raises that same exception and has not polled; the
    constructor then raises it too, without having opened a socket or
    started a thread, and a process that constructs the bot and then starts
    it ends with that exception without a single call of [run_polling]. *)
Theorem setup_failure_aborts_startup
    (w : World) (pre post : list op) (o : op) (e : exn) (w1 : World) :
  setup_calls = pre ++ o :: post ->
  perform_all pre w = (Ok tt, w1) ->
  fst (perform o w1) = Raise e ->
  fst (setup_bot w) = Raise e
  /\ polls (snd (setup_bot w)) = polls w
  /\ (forall w0, w = reset_fields w0 ->
        fst (__init__ w0) = Raise e
        /\ polls (snd (__init__ w0)) = polls w0
        /\ listening (snd (__init__ w0)) = listening w0
        /\ threads (snd (__init__ w0)) = threads w0
        /\ fst (run_bot w0) = Raise e
        /\ polls (snd (run_bot w0)) = polls w0).
Proof.
  intros Hcalls Hpre Ho.
  assert (Hbody : setup_bot_body w = (Raise e, w1)).
  { rewrite setup_bot_body_calls, Hcalls. unfold bind.
    now rewrite (perform_all_raises pre post o e w w1 Hpre Ho). }
  pose proof (setup_bot_raises w w1 e Hbody) as Hraise.
  destruct (setup_bot_frame w) as (Hpolls & Hlisten & Hthreads & _).
  split; [exact Hraise |]. split; [exact Hpolls |].
  intros w0 ->.
  pose proof (init_raises w0 e Hraise) as Hinit.
  assert (Hrun : run_bot w0 = (Raise e, snd (setup_bot (reset_fields w0)))).
  { unfold run_bot, bind. now rewrite Hinit. }
  rewrite Hrun, Hinit. cbn [fst snd].
  rewrite Hpolls, Hlisten, Hthreads. repeat split.
Qed.

End Startup.

Lemma setup_failure_aborts_startup_witness :
  let w := reset_fields Scenario.fresh in
  fst (setup_bot (H := Scenario.bad_registration) w)
    = Raise (Exn ValueError "Command `help` is not a valid bot command")
  /\ polls (snd (setup_bot (H := Scenario.bad_registration) w)) = polls w
  /\ fst (run_bot (H := Scenario.bad_registration) Scenario.fresh)
     = Raise (Exn ValueError "Command `help` is not a valid bot command")
  /\ polls (snd (run_bot (H := Scenario.bad_registration) Scenario.fresh)) = [].
Proof.
  cbn zeta.
  refine (let P := setup_failure_aborts_startup (H := Scenario.bad_registration)
                     (reset_fields Scenario.fresh)
                     [ OpBuild (VStr "123456:TOKEN");
                       OpAddHandler (CommandHandler "start" start_command) ]
                     _
                     (OpAddHandler (CommandHandler "help" help_command))
                     (Exn ValueError "Command `help` is not a valid bot command")
                     _ eq_refl eq_refl eq_refl in
          let Q := proj2 (proj2 P) Scenario.fresh eq_refl in
          conj (proj1 P)
               (conj (proj1 (proj2 P))
                     (conj (proj1 (proj2 (proj2 (proj2 (proj2 Q))))) 
                           (proj2 (proj2 (proj2 (proj2 (proj2 Q)))))))).
Defined.

(** ** [setup_health_server] and [start], case by case *)

Section Outcomes.

Context `{Env}.

(** What a handler of [except Exception] makes of an exception [e] raised in
    world [w]. *)
Lemma try_except_raise {A} (body : M A) (handler : exn -> M A) (w w' : World) (e : exn) :
  body w = (Raise e, w') ->
  try_except body handler w =
    if is_Exception e then handler e w' else (Raise e, w').
Proof. intros Hb. unfold try_except. now rewrite Hb. Qed.

Lemma try_except_ok {A} (body : M A) (handler : exn -> M A) (w w' : World) (a : A) :
  body w = (Ok a, w') -> try_except body handler w = (Ok a, w').
Proof. intros Hb. unfold try_except. now rewrite Hb. Qed.

(** [setup_health_server], by what the environment does to the two calls. *)
Lemma setup_health_server_cases (w : World) :
  let w_bound := set_health_server (Some bound_server) (add_listening bound_server w) in
  setup_health_server w =
    match fault (OpHTTPServer bound_server) w with
    | Some e =>
        if is_Exception e then health_failed e w else (Raise e, w)
    | None =>
        match fault (OpThreadStart health_thread) w_bound with
        | Some e =>
            if is_Exception e then health_failed e w_bound else (Raise e, w_bound)
        | None =>
            (Ok tt,
             add_log INFO ("Health check server started on port " ++ str PORT)
                     (add_thread health_thread w_bound))
        end
    end.
Proof.
  cbn zeta. unfold setup_health_server, try_except. cbn zeta.
  fold bound_server. unfold bind at 1. unfold perform at 1.
  destruct (fault (OpHTTPServer bound_server) w) as [e |]; [reflexivity |].
  cbn [effect]. unfold bind at 1. cbn [modify].
  unfold bind at 1. cbn [get health_server set_health_server].
  fold health_thread. unfold bind at 1. unfold perform at 1.
  match goal with
  | |- context [fault (OpThreadStart health_thread) ?w0] =>
      destruct (fault (OpThreadStart health_thread) w0) as [e |]
  end; reflexivity.
Qed.

(** [start], by whether the client is there, what the health phase does and
    what the poll loop does. *)
Lemma start_outcome (w : World) :
  start w =
    match application w with
    | None =>
        start_failed (Exn RuntimeError "Bot application not properly initialized") w
    | Some _ =>
        match when (truthy HEALTH_CHECK_ENABLED && not_ (health_server w))
                   setup_health_server w with
        | (Raise e, w') =>
            if is_Exception e then start_failed e w' else (Raise e, w')
        | (Ok _, w') =>
            let w'' := snd (log_startup w') in
            match fault (OpRunPolling polling_arguments) w'' with
            | Some e =>
                if is_Exception e
                then start_failed e (add_poll polling_arguments w'')
                else (Raise e, add_poll polling_arguments w'')
            | None => (Ok tt, add_poll polling_arguments w'')
            end
        end
    end.
Proof.
  unfold start, try_except. fold polling_arguments.
  unfold bind at 1. cbn [get].
  destruct (application w) as [app |]; cbn [not_ when]; [| reflexivity].
  unfold bind at 1. cbn [ret]. unfold bind at 1. cbn [get].
  unfold bind at 1.
  destruct (when (truthy HEALTH_CHECK_ENABLED && not_ (health_server w))
                 setup_health_server w) as [[[] | e] w']; [| reflexivity].
  unfold bind at 1. cbn zeta.
  assert (Hlog : fst (log_startup w') = Ok tt) by reflexivity.
  destruct (log_startup w') as [[[] | e] w'']; cbn [fst snd] in *; [| discriminate].
  unfold run_polling.
  destruct (fault (OpRunPolling polling_arguments) w''); reflexivity.
Qed.

Lemma log_startup_frame (w : World) :
  application (snd (log_startup w)) = application w
  /\ health_server (snd (log_startup w)) = health_server w
  /\ listening (snd (log_startup w)) = listening w
  /\ threads (snd (log_startup w)) = threads w
  /\ polls (snd (log_startup w)) = polls w.
Proof. repeat split. Qed.

Lemma start_failed_outcome (e : exn) (w : World) :
  start_failed e w = (Raise e, add_log ERROR ("Error starting bot: " ++ exn_msg e) w).
Proof. reflexivity. Qed.

Lemma health_failed_outcome (e : exn) (w : World) :
  health_failed e w =
    (Ok tt, add_log WARNING ("Could not start health server: " ++ exn_msg e) w).
Proof. reflexivity. Qed.

End Outcomes.

(** ** What the health-server setup can change *)

(** Splits the goal along the outcomes of [setup_health_server w]. *)
Ltac health_cases w :=
  rewrite (setup_health_server_cases w); cbn zeta;
  repeat match goal with
         | |- context [match fault ?o ?w0 with _ => _ end] =>
             destruct (fault o w0) as [? |]
         | |- context [if is_Exception ?e then _ else _] =>
             destruct (is_Exception e)
         end;
  rewrite ?health_failed_outcome; cbn [fst snd].

Section HealthServer.

Context `{Env}.

Lemma setup_health_server_frame (w : World) :
  polls (snd (setup_health_server w)) = polls w
  /\ application (snd (setup_health_server w)) = application w.
Proof. health_cases w; split; reflexivity. Qed.

(** It binds at most one server, and records it in [self.health_server]
    when it does. *)
Lemma setup_health_server_listening (w : World) :
  (listening (snd (setup_health_server w)) = listening w
   /\ health_server (snd (setup_health_server w)) = health_server w
   /\ threads (snd (setup_health_server w)) = threads w)
  \/ (listening (snd (setup_health_server w)) = listening w ++ [bound_server]
      /\ health_server (snd (setup_health_server w)) = Some bound_server
      /\ (threads (snd (setup_health_server w)) = threads w
          \/ threads (snd (setup_health_server w)) = threads w ++ [health_thread])).
Proof.
  health_cases w;
    first [ left; repeat split; reflexivity
          | right; repeat split; first [ left; reflexivity | right; reflexivity ] ].
Qed.

(** The threads it starts are the daemonic [health_thread]. *)
Lemma setup_health_server_threads (w : World) :
  threads (snd (setup_health_server w)) = threads w
  \/ threads (snd (setup_health_server w)) = threads w ++ [health_thread].
Proof.
  destruct (setup_health_server_listening w) as [(_ & _ & Ht) | (_ & _ & Ht)];
    [left; exact Ht | exact Ht].
Qed.

(** An exception that escapes it is not an [Exception]. *)
Lemma setup_health_server_escape (w w' : World) (e : exn) :
  setup_health_server w = (Raise e, w') -> is_Exception e = false.
Proof.
  rewrite (setup_health_server_cases w); cbn zeta.
  repeat match goal with
         | |- context [match fault ?o ?w0 with _ => _ end] =>
             destruct (fault o w0) as [e0 |]
         | |- context [if is_Exception ?e then _ else _] =>
             destruct (is_Exception e) eqn:?
         end;
    rewrite ?health_failed_outcome; intros [= <- <-]; assumption.
Qed.

End HealthServer.

(** ** [start] *)

Section Start.

Context `{Env}.

(** The health phase of [start]: the guarded call of line 77-78. *)
Lemma health_phase_frame (b : bool) (w : World) :
  polls (snd (when b setup_health_server w)) = polls w
  /\ application (snd (when b setup_health_server w)) = application w.
Proof.
  destruct b; cbn [when]; [apply setup_health_server_frame | split; reflexivity].
Qed.

Lemma health_phase_escape (b : bool) (w w' : World) (e : exn) :
  when b setup_health_server w = (Raise e, w') -> is_Exception e = false.
Proof.
  destruct b; cbn [when]; [apply setup_health_server_escape | discriminate].
Qed.

(** [start] either leaves the record of poll calls alone or adds one call
    with the arguments of lines 86-92. *)
Lemma start_polls (w : World) :
  polls (snd (start w)) = polls w
  \/ polls (snd (start w)) = polls w ++ [polling_arguments].
Proof.
  rewrite start_outcome.
  destruct (application w); [| left; reflexivity].
  pose proof (health_phase_frame
                (truthy HEALTH_CHECK_ENABLED && not_ (health_server w)) w) as [Hp _].
  destruct (when _ setup_health_server w) as [[[] | e] w']; cbn [snd] in Hp.
  - right. cbn zeta.
    destruct (fault _ _) as [e |]; [destruct (is_Exception e) |];
      rewrite ?start_failed_outcome; cbn [snd add_poll add_log polls];
      now rewrite <- Hp.
  - left. destruct (is_Exception e); rewrite ?start_failed_outcome; exact Hp.
Qed.

(** C10: called on a bot whose client is missing, [start] raises
    [RuntimeError] at once: it logs the error and does nothing else, so no
    health server is set up and [run_polling] is not called. *)
Theorem start_requires_application (w : World) :
  application w = None ->
  start w =
    (Raise (Exn RuntimeError "Bot application not properly initialized"),
     add_log ERROR "Error starting bot: Bot application not properly initialized" w)
  /\ polls (snd (start w)) = polls w
  /\ listening (snd (start w)) = listening w
  /\ threads (snd (start w)) = threads w
  /\ health_server (snd (start w)) = health_server w.
Proof.
  intros Happ. rewrite start_outcome, Happ, start_failed_outcome.
  repeat split.
Qed.

(** With the client there and a health phase that does not raise, [start]
    calls [run_polling], with the arguments of lines 86-92. *)
Lemma start_calls_run_polling (w : World) :
  application w <> None ->
  fst (when (truthy HEALTH_CHECK_ENABLED && not_ (health_server w))
            setup_health_server w) = Ok tt ->
  polls (snd (start w)) = polls w ++ [polling_arguments].
Proof.
  intros Happ Hphase. rewrite start_outcome.
  destruct (application w); [| contradiction].
  pose proof (health_phase_frame
                (truthy HEALTH_CHECK_ENABLED && not_ (health_server w)) w) as [Hp _].
  destruct (when _ setup_health_server w) as [[[] | e] w'];
    cbn [fst snd] in *; [| discriminate].
  destruct (fault _ _) as [e |]; [destruct (is_Exception e) |];
    rewrite ?start_failed_outcome; cbn [snd add_poll add_log polls];
    now rewrite <- Hp.
Qed.

(** C4: every call of [run_polling] that [start] makes carries a poll
    interval of 1.0, the value 10 for the overall, read, write, connect and
    pool timeouts, and [drop_pending_updates=True]; and [start] makes that
    call whenever the client is there and the health phase does not raise,
    in particular whenever [start] returns. *)
Theorem start_polling_arguments (w : World) :
  let cfg := {| poll_interval := 1.0;
                timeout := 10;
                read_timeout := 10;
                write_timeout := 10;
                connect_timeout := 10;
                pool_timeout := 10;
                drop_pending_updates := true |} in
  (polls (snd (start w)) = polls w \/ polls (snd (start w)) = polls w ++ [cfg])
  /\ (application w <> None ->
      fst (when (truthy HEALTH_CHECK_ENABLED && not_ (health_server w))
                setup_health_server w) = Ok tt ->
      polls (snd (start w)) = polls w ++ [cfg])
  /\ (fst (start w) = Ok tt -> polls (snd (start w)) = polls w ++ [cfg]).
Proof.
  cbn zeta. fold polling_arguments.
  split; [apply start_polls |].
  split; [apply start_calls_run_polling |].
  intros Hok. rewrite start_outcome in Hok.
  destruct (application w) eqn:Happ; [| discriminate].
  apply start_calls_run_polling; [congruence |].
  destruct (when _ setup_health_server w) as [[[] | e] w']; [reflexivity |].
  destruct (is_Exception e); discriminate.
Qed.

End Start.

Lemma start_requires_application_witness :
  fst (start (H := Scenario.on_render) Scenario.fresh)
    = Raise (Exn RuntimeError "Bot application not properly initialized")
  /\ polls (snd (start (H := Scenario.on_render) Scenario.fresh)) = [].
Proof.
  destruct (start_requires_application (H := Scenario.on_render) Scenario.fresh eq_refl)
    as (Hstart & Hpolls & _).
  split; [now rewrite Hstart | exact Hpolls].
Defined.

Lemma start_polling_arguments_witness :
  let w := snd (__init__ (H := Scenario.on_render) Scenario.fresh) in
  polls (snd (start (H := Scenario.on_render) w))
    = [ {| poll_interval := 1.0; timeout := 10; read_timeout := 10;
           write_timeout := 10; connect_timeout := 10; pool_timeout := 10;
           drop_pending_updates := true |} ]
  /\ fst (start (H := Scenario.on_render) w) = Ok tt.
Proof.
  cbn zeta. split; [| reflexivity].
  exact (proj2 (proj2 (start_polling_arguments (H := Scenario.on_render)
                         (snd (__init__ (H := Scenario.on_render) Scenario.fresh))))
               eq_refl).
Defined.

(** ** The health server in the life of the bot *)

Section Lifecycle.

Context `{Env}.

(** Apart from the log and the poll record, [start] changes what its health
    phase changes. *)
Lemma start_health_effect (w : World) :
  let w' := match application w with
            | None => w
            | Some _ =>
                snd (when (truthy HEALTH_CHECK_ENABLED && not_ (health_server w))
                          setup_health_server w)
            end in
  listening (snd (start w)) = listening w'
  /\ threads (snd (start w)) = threads w'
  /\ health_server (snd (start w)) = health_server w'.
Proof.
  cbn zeta. rewrite start_outcome.
  destruct (application w); [| repeat split].
  destruct (when _ setup_health_server w) as [[[] | e] w']; cbn [snd].
  - cbn zeta. destruct (fault _ _) as [e |]; [destruct (is_Exception e) |];
      rewrite ?start_failed_outcome; repeat split.
  - destruct (is_Exception e); rewrite ?start_failed_outcome; repeat split.
Qed.

(** With the guard of line 77 false, [start] leaves the health server, the
    sockets and the threads as they are. *)
Lemma start_without_health_phase (w : World) :
  truthy HEALTH_CHECK_ENABLED && not_ (health_server w) = false ->
  listening (snd (start w)) = listening w
  /\ threads (snd (start w)) = threads w
  /\ health_server (snd (start w)) = health_server w.
Proof.
  intros Hguard. pose proof (start_health_effect w) as Heff.
  cbn zeta in Heff. rewrite Hguard in Heff. cbn [when ret snd] in Heff.
  destruct (application w); exact Heff.
Qed.

Lemma init_health_effect (w0 : World) :
  let w1 := snd (setup_bot (reset_fields w0)) in
  snd (__init__ w0) = w1
  \/ (truthy HEALTH_CHECK_ENABLED = true
      /\ snd (__init__ w0) = snd (setup_health_server w1)).
Proof.
  cbn zeta. rewrite init_unfold. unfold bind.
  destruct (setup_bot (reset_fields w0)) as [[[] | e] w1]; cbn [snd]; [| now left].
  destruct (truthy HEALTH_CHECK_ENABLED); cbn [when]; [right; split; reflexivity | now left].
Qed.

Lemma init_setup_frame (w0 : World) :
  let w1 := snd (setup_bot (reset_fields w0)) in
  listening w1 = listening w0 /\ threads w1 = threads w0 /\ health_server w1 = None
  /\ polls w1 = polls w0.
Proof.
  cbn zeta. destruct (setup_bot_frame (reset_fields w0)) as (Hp & Hl & Ht & Hh).
  rewrite Hp, Hl, Ht, Hh. repeat split.
Qed.

End Lifecycle.

Section HealthServerLifecycle.

Context `{Env}.

Lemma after_starts_preserves {B} (f : World -> B) :
  (forall w, f (snd (start w)) = f w) ->
  forall n w, f (after_starts n w) = f w.
Proof.
  intros Hstart n. induction n as [| n IH]; intros w; [reflexivity |].
  cbn [after_starts]. now rewrite IH.
Qed.

(** C3: when binding the health server's socket raises an [Exception] (a port
    in use is an [OSError]), [setup_health_server] returns normally: it adds
    one WARNING record with the exception's text to the log and changes
    nothing else, so no server is bound or recorded and no thread is
    started.  The constructor therefore still returns when [setup_bot] did,
    and [start] still calls [run_polling], returning normally when the poll
    loop does, with no health server and the warning in the log. *)
Theorem bind_failure_is_not_fatal (w : World) (e : exn) :
  fault (OpHTTPServer bound_server) w = Some e ->
  is_Exception e = true ->
  setup_health_server w =
    (Ok tt, add_log WARNING ("Could not start health server: " ++ exn_msg e) w)
  /\ (log (snd (setup_health_server w)) =
        log w ++ [(WARNING, ("Could not start health server: " ++ exn_msg e)%string)]
      /\ health_server (snd (setup_health_server w)) = health_server w
      /\ listening (snd (setup_health_server w)) = listening w
      /\ threads (snd (setup_health_server w)) = threads w
      /\ polls (snd (setup_health_server w)) = polls w)
  /\ (forall w0, setup_bot (reset_fields w0) = (Ok tt, w) ->
                 truthy HEALTH_CHECK_ENABLED = true ->
                 __init__ w0 =
                   (Ok tt, add_log WARNING
                             ("Could not start health server: " ++ exn_msg e) w)
                 /\ log (snd (__init__ w0)) =
                      log w ++ [(WARNING,
                                 ("Could not start health server: " ++ exn_msg e)%string)])
  /\ (application w <> None ->
      truthy HEALTH_CHECK_ENABLED = true ->
      health_server w = None ->
      polls (snd (start w)) = polls w ++ [polling_arguments]
      /\ listening (snd (start w)) = listening w
      /\ threads (snd (start w)) = threads w
      /\ health_server (snd (start w)) = None
      /\ (exists later,
            log (snd (start w)) =
              log w ++ [(WARNING, ("Could not start health server: " ++ exn_msg e)%string)]
                    ++ later)
      /\ (fault (OpRunPolling polling_arguments) (logged_startup (exn_msg e) w) = None ->
          fst (start w) = Ok tt)).
Proof.
  intros Hbind Hexn.
  assert (Hshs : setup_health_server w =
                 (Ok tt, add_log WARNING
                           ("Could not start health server: " ++ exn_msg e) w)).
  { rewrite setup_health_server_cases. cbn zeta. now rewrite Hbind, Hexn. }
  split; [exact Hshs |]. split; [rewrite Hshs; repeat split |]. split.
  - intros w0 Hsetup Hflag.
    assert (Hinit : __init__ w0 =
                    (Ok tt, add_log WARNING
                              ("Could not start health server: " ++ exn_msg e) w)).
    { rewrite init_unfold. unfold bind. rewrite Hsetup, Hflag. cbn [when]. exact Hshs. }
    split; [exact Hinit | now rewrite Hinit].
  - intros Happ Hflag Hnone.
    assert (Hphase : when (truthy HEALTH_CHECK_ENABLED && not_ (health_server w))
                          setup_health_server w =
                     (Ok tt, add_log WARNING
                               ("Could not start health server: " ++ exn_msg e) w)).
    { rewrite Hflag, Hnone. cbn [not_ andb when]. exact Hshs. }
    destruct (start_health_effect w) as (Hl & Ht & Hh).
    destruct (application w) eqn:Ha; [| contradiction].
    rewrite Hphase in Hl, Ht, Hh. cbn [snd] in Hl, Ht, Hh.
    split.
    { apply start_calls_run_polling.
      - rewrite Ha. discriminate.
      - now rewrite Hphase. }
    split; [exact Hl |]. split; [exact Ht |]. split; [now rewrite Hh |].
    split.
    { rewrite start_outcome, Ha, Hphase. cbn zeta.
      set (w2 := snd (log_startup
                        (add_log WARNING
                           ("Could not start health server: " ++ exn_msg e) w))).
      assert (Hw2 : exists mid,
                log w2 =
                  log w ++ [(WARNING,
                             ("Could not start health server: " ++ exn_msg e)%string)]
                        ++ mid).
      { eexists. unfold w2, log_startup, logger_info, modify, bind.
        cbn [snd log add_log]. rewrite <- ?app_assoc. reflexivity. }
      destruct Hw2 as (mid & Hw2).
      destruct (fault (OpRunPolling polling_arguments) w2) as [e' |];
        [destruct (is_Exception e') |];
        rewrite ?start_failed_outcome; cbn [snd log add_log add_poll];
        rewrite Hw2.
      - eexists (mid ++ [_]). now rewrite <- !app_assoc.
      - exists mid. reflexivity.
      - exists mid. reflexivity. }
    intros Hpoll. rewrite start_outcome, Ha, Hphase. cbn zeta.
    unfold logged_startup in Hpoll. now rewrite Hpoll.
Qed.

(** C6: with the flag false, neither the constructor nor [start], however
    often it is called, nor the two in sequence, binds a socket, starts a
    thread or sets [self.health_server]. *)
Theorem no_health_server_when_disabled (w : World) :
  truthy HEALTH_CHECK_ENABLED = false ->
  (listening (snd (__init__ w)) = listening w
   /\ threads (snd (__init__ w)) = threads w
   /\ health_server (snd (__init__ w)) = None)
  /\ (listening (snd (start w)) = listening w
      /\ threads (snd (start w)) = threads w
      /\ health_server (snd (start w)) = health_server w)
  /\ (forall n, listening (after_starts n w) = listening w
                /\ threads (after_starts n w) = threads w
                /\ health_server (after_starts n w) = health_server w)
  /\ (listening (snd (run_bot w)) = listening w
      /\ threads (snd (run_bot w)) = threads w
      /\ health_server (snd (run_bot w)) = None).
Proof.
  intros Hflag.
  assert (Hstart : forall w', listening (snd (start w')) = listening w'
                              /\ threads (snd (start w')) = threads w'
                              /\ health_server (snd (start w')) = health_server w').
  { intros w'. apply start_without_health_phase. now rewrite Hflag. }
  assert (Hinit : listening (snd (__init__ w)) = listening w
                  /\ threads (snd (__init__ w)) = threads w
                  /\ health_server (snd (__init__ w)) = None).
  { destruct (init_health_effect w) as [-> | [Hcontra _]]; [| congruence].
    destruct (init_setup_frame w) as (Hl & Ht & Hh & _). now rewrite Hl, Ht, Hh. }
  split; [exact Hinit |]. split; [apply Hstart |]. split.
  - intros n. repeat split; apply after_starts_preserves; intros w'; apply Hstart.
  - unfold run_bot, bind. destruct Hinit as (Hl & Ht & Hh).
    destruct (__init__ w) as [[[] | e] w1]; cbn [snd] in *; [| now rewrite Hl, Ht, Hh].
    destruct (Hstart w1) as (Hl' & Ht' & Hh'). rewrite Hl', Ht', Hh'. now rewrite Hl, Ht, Hh.
Qed.

End HealthServerLifecycle.

Section SingleServer.

Context `{Env}.

Lemma setup_health_server_one_server (w : World) :
  health_server w = None -> one_server w ->
  one_server (snd (setup_health_server w)).
Proof.
  intros Hnone [Hempty _]. specialize (Hempty Hnone).
  destruct (setup_health_server_listening w) as [(Hl & Hh & _) | (Hl & Hh & _)];
    unfold one_server; rewrite Hl, Hh, Hempty; cbn [app length].
  - split; [reflexivity | lia].
  - split; [discriminate | lia].
Qed.

Lemma start_one_server (w : World) :
  one_server w -> one_server (snd (start w)).
Proof.
  intros Hinv. destruct (start_health_effect w) as (Hl & _ & Hh).
  unfold one_server at 1. rewrite Hl, Hh.
  destruct (application w); [| exact Hinv].
  destruct (health_server w) eqn:Hhs.
  - rewrite andb_false_r. cbn [when ret snd]. exact Hinv.
  - destruct (truthy HEALTH_CHECK_ENABLED); cbn [andb not_ when ret snd].
    + now apply setup_health_server_one_server.
    + exact Hinv.
Qed.

Lemma init_one_server (w0 : World) :
  listening w0 = [] -> one_server (snd (__init__ w0)).
Proof.
  intros Hfresh. destruct (init_setup_frame w0) as (Hl & _ & Hh & _).
  assert (Hinv : one_server (snd (setup_bot (reset_fields w0)))).
  { unfold one_server. rewrite Hl, Hfresh. split; [reflexivity | cbn; lia]. }
  destruct (init_health_effect w0) as [-> | [_ ->]]; [exact Hinv |].
  now apply setup_health_server_one_server.
Qed.

Lemma after_starts_one_server (n : nat) (w : World) :
  one_server w -> one_server (after_starts n w).
Proof.
  revert w. induction n as [| n IH]; intros w Hinv; [exact Hinv |].
  cbn [after_starts]. apply IH. now apply start_one_server.
Qed.

(** C7: a [start] that finds [self.health_server] set binds no socket and
    starts no thread, and keeps the server it found; and in a process that
    had no server before the bot was constructed, at most one server is
    bound after the constructor and any number of calls of [start]. *)
Theorem at_most_one_health_server :
  (forall w, health_server w <> None ->
             listening (snd (start w)) = listening w
             /\ threads (snd (start w)) = threads w
             /\ health_server (snd (start w)) = health_server w)
  /\ (forall w0 n, listening w0 = [] ->
                   (length (listening (after_starts n (snd (__init__ w0)))) <= 1)%nat).
Proof.
  split.
  - intros w Hsome. apply start_without_health_phase.
    destruct (health_server w); [apply andb_false_r | contradiction].
  - intros w0 n Hfresh.
    apply (after_starts_one_server n (snd (__init__ w0))).
    now apply init_one_server.
Qed.

Lemma started_only_daemons_refl (w : World) : started_only_daemons w w.
Proof. exists []. split; [now rewrite app_nil_r | constructor]. Qed.

Lemma started_only_daemons_trans (w1 w2 w3 : World) :
  started_only_daemons w1 w2 -> started_only_daemons w2 w3 ->
  started_only_daemons w1 w3.
Proof.
  intros (n1 & H1 & F1) (n2 & H2 & F2). exists (n1 ++ n2). split.
  - now rewrite H2, H1, <- app_assoc.
  - apply Forall_app. now split.
Qed.

Lemma started_only_daemons_same (w w' : World) :
  threads w' = threads w -> started_only_daemons w w'.
Proof. intros Ht. exists []. split; [now rewrite app_nil_r | constructor]. Qed.

Lemma started_only_daemons_exit (w w' : World) :
  started_only_daemons w w' -> joined_at_exit w' = joined_at_exit w.
Proof.
  intros (new & Ht & Hd). unfold joined_at_exit. rewrite Ht, List.filter_app.
  assert (Hnone : List.filter (fun t => negb (daemon t)) new = []).
  { clear Ht. induction Hd as [| t new Hdt _ IH]; [reflexivity |].
    cbn [List.filter]. now rewrite Hdt. }
  now rewrite Hnone, app_nil_r.
Qed.

Lemma setup_health_server_daemons (w : World) :
  started_only_daemons w (snd (setup_health_server w)).
Proof.
  destruct (setup_health_server_threads w) as [Ht | Ht].
  - now apply started_only_daemons_same.
  - exists [health_thread]. split; [exact Ht |]. now repeat constructor.
Qed.

Lemma start_daemons (w : World) : started_only_daemons w (snd (start w)).
Proof.
  destruct (start_health_effect w) as (_ & Ht & _).
  destruct (application w); [| now apply started_only_daemons_same].
  destruct (truthy HEALTH_CHECK_ENABLED && not_ (health_server w));
    cbn [when ret snd] in Ht; [| now apply started_only_daemons_same].
  destruct (setup_health_server_daemons w) as (new & Hnew & Hd).
  exists new. split; [now rewrite Ht | exact Hd].
Qed.

Lemma init_daemons (w0 : World) : started_only_daemons w0 (snd (__init__ w0)).
Proof.
  destruct (init_setup_frame w0) as (_ & Ht & _ & _).
  apply (started_only_daemons_trans _ (snd (setup_bot (reset_fields w0))));
    [now apply started_only_daemons_same |].
  destruct (init_health_effect w0) as [-> | [_ ->]];
    [apply started_only_daemons_refl | apply setup_health_server_daemons].
Qed.

(** C9: the thread that runs the health server's [serve_forever] is created
    with [daemon=True].  Every thread that [setup_health_server], the
    constructor or [start] starts is that thread, so each of them leaves the
    threads the interpreter waits for at exit as they were; and when both
    the bind and the thread start go through, exactly that thread is
    started for the server that was bound. *)
Theorem health_thread_is_daemonic (w : World) :
  daemon health_thread = true
  /\ target_serve_forever health_thread = bound_server
  /\ started_only_daemons w (snd (setup_health_server w))
  /\ started_only_daemons w (snd (__init__ w))
  /\ started_only_daemons w (snd (start w))
  /\ joined_at_exit (snd (setup_health_server w)) = joined_at_exit w
  /\ joined_at_exit (snd (__init__ w)) = joined_at_exit w
  /\ joined_at_exit (snd (start w)) = joined_at_exit w
  /\ (fault (OpHTTPServer bound_server) w = None ->
      fault (OpThreadStart health_thread)
            (set_health_server (Some bound_server) (add_listening bound_server w)) = None ->
      threads (snd (setup_health_server w)) = threads w ++ [health_thread]
      /\ health_server (snd (setup_health_server w)) = Some bound_server).
Proof.
  pose proof (setup_health_server_daemons w) as Hs.
  pose proof (init_daemons w) as Hi.
  pose proof (start_daemons w) as Hst.
  do 2 (split; [reflexivity |]).
  split; [exact Hs |]. split; [exact Hi |]. split; [exact Hst |].
  do 3 (split; [now apply started_only_daemons_exit |]).
  intros Hbind Hthread. rewrite setup_health_server_cases. cbn zeta.
  rewrite Hbind, Hthread. split; reflexivity.
Qed.

End SingleServer.

Lemma bind_failure_is_not_fatal_witness :
  let w := snd (setup_bot (H := Scenario.port_in_use) (reset_fields Scenario.fresh)) in
  setup_health_server (H := Scenario.port_in_use) w =
    (Ok tt, add_log WARNING
              "Could not start health server: [Errno 98] Address already in use" w)
  /\ log (snd (setup_health_server (H := Scenario.port_in_use) w)) =
       [ (INFO, "Bot handlers configured successfully");
         (WARNING, "Could not start health server: [Errno 98] Address already in use") ]
  /\ fst (__init__ (H := Scenario.port_in_use) Scenario.fresh) = Ok tt
  /\ polls (snd (start (H := Scenario.port_in_use) w))
     = [polling_arguments]
  /\ health_server (snd (start (H := Scenario.port_in_use) w)) = None
  /\ fst (start (H := Scenario.port_in_use) w) = Ok tt.
Proof.
  cbn zeta.
  pose proof (bind_failure_is_not_fatal (H := Scenario.port_in_use)
                (snd (setup_bot (H := Scenario.port_in_use) (reset_fields Scenario.fresh)))
                (Exn OSError "[Errno 98] Address already in use")
                eq_refl eq_refl) as (Hsetup & (Hlog & _) & Hinit & Hstart).
  split; [exact Hsetup |]. split; [exact Hlog |]. split.
  - now rewrite (proj1 (Hinit Scenario.fresh eq_refl eq_refl)).
  - assert (Happ : application
                     (snd (setup_bot (H := Scenario.port_in_use)
                             (reset_fields Scenario.fresh))) <> None)
      by discriminate.
    destruct (Hstart Happ eq_refl eq_refl) as (Hpolls & _ & _ & Hnone & _ & Hok).
    split; [exact Hpolls |]. split; [exact Hnone |]. exact (Hok eq_refl).
Defined.

Lemma no_health_server_when_disabled_witness :
  listening (snd (run_bot (H := Scenario.local_run) Scenario.fresh)) = []
  /\ threads (snd (run_bot (H := Scenario.local_run) Scenario.fresh)) = []
  /\ health_server (snd (run_bot (H := Scenario.local_run) Scenario.fresh)) = None.
Proof.
  exact (proj2 (proj2 (proj2 (no_health_server_when_disabled
                                (H := Scenario.local_run) Scenario.fresh eq_refl)))).
Defined.

Lemma at_most_one_health_server_witness :
  (length (listening (after_starts (H := Scenario.on_render) 2
                        (snd (__init__ (H := Scenario.on_render) Scenario.fresh)))) <= 1)%nat.
Proof.
  exact (proj2 (at_most_one_health_server (H := Scenario.on_render))
               Scenario.fresh 2%nat eq_refl).
Defined.

Lemma health_thread_is_daemonic_witness :
  threads (snd (setup_health_server (H := Scenario.on_render) Scenario.fresh))
    = [health_thread (H := Scenario.on_render)]
  /\ health_server (snd (setup_health_server (H := Scenario.on_render) Scenario.fresh))
     = Some (bound_server (H := Scenario.on_render)).
Proof.
  exact (proj2 (proj2 (proj2 (proj2 (proj2 (proj2 (proj2 (proj2
           (health_thread_is_daemonic (H := Scenario.on_render) Scenario.fresh))))))))
         eq_refl eq_refl).
Defined.

(** ** The message-shape handlers *)

Section MessageHandlers.

Import Dispatch.

Lemma effective_carries (u : Update) (m : Message) :
  effective_message u = Some m -> carries_message u = true.
Proof.
  unfold effective_message, carries_message.
  destruct (message u), (edited_message u), (channel_post u),
    (edited_channel_post u); cbn; intros; try reflexivity; discriminate.
Qed.

Lemma edited_carries (u : Update) : edited u = true -> carries_message u = true.
Proof.
  unfold edited, carries_message.
  destruct (edited_message u); cbn; [intros _ | discriminate].
  now rewrite !orb_true_r.
Qed.

(** Each filter matches exactly the updates of its shape. *)
Lemma notice_filter (u : Update) : check_update NEW_CHAT_MEMBERS u = notice u.
Proof.
  cbn [check_update]. unfold notice, on_effective_message.
  destruct (effective_message u) as [m |] eqn:Hm; [| apply andb_false_r].
  now rewrite (effective_carries u m Hm).
Qed.

Lemma text_filter (u : Update) :
  check_update (And TEXT (Invert COMMAND)) u = plain_text u.
Proof.
  cbn [check_update]. unfold plain_text, on_effective_message.
  destruct (effective_message u) as [m |] eqn:Hm.
  - rewrite (effective_carries u m Hm). cbn [andb]. reflexivity.
  - now destruct (carries_message u).
Qed.

Lemma edited_message_filter (u : Update) :
  check_update EDITED_MESSAGE u = edited u.
Proof.
  pose proof (edited_carries u) as Hc.
  cbn [check_update]. unfold edited in *.
  destruct (bool_decide (is_Some (edited_message u))); [| apply andb_false_r].
  now rewrite Hc.
Qed.

(** The plain-text filter excludes commands by construction. *)
Lemma text_excludes_command (u : Update) :
  check_update (And TEXT (Invert COMMAND)) u = true ->
  check_update COMMAND u = false.
Proof.
  cbn [check_update].
  destruct (carries_message u); cbn [andb]; [| discriminate].
  destruct (on_effective_message has_text u); cbn [andb]; [| discriminate].
  now destruct (on_effective_message starts_with_command u).
Qed.

(** C5, as stated, fails: the update for an edited plain-text message
    matches the filter of the text handler and the filter of the
    edited-message handler. *)
Lemma edited_text_matches_two_filters :
  check_update NEW_CHAT_MEMBERS Scenario.edited_hello = false
  /\ check_update (And TEXT (Invert COMMAND)) Scenario.edited_hello = true
  /\ check_update EDITED_MESSAGE Scenario.edited_hello = true
  /\ matching Scenario.edited_hello = 2%nat.
Proof. repeat split. Qed.

(** C5 (amended): the number of message handlers whose filter matches an
    update is the number of the three shapes it has: a new-member notice, a
    text that does not start with a command, an edited message.  So at most
    one filter matches exactly when no two of the shapes come together: an
    edited message matches a second filter only when its text is not a
    command or when it lists new members; a message that is not edited
    matches two only when it is a notice and a plain text at once.  The
    filter of the text handler never matches a message that starts with a
    bot command. *)
Theorem message_filters_exclusive_except_overlap (u : Update) :
  matching u =
    (Nat.b2n (notice u) + Nat.b2n (plain_text u) + Nat.b2n (edited u))%nat
  /\ ((matching u <= 1)%nat <->
      edited u && plain_text u = false
      /\ edited u && notice u = false
      /\ notice u && plain_text u = false)
  /\ (edited u = true -> plain_text u = false -> notice u = false ->
      matching u = 1%nat)
  /\ (edited u = false -> notice u && plain_text u = false ->
      (matching u <= 1)%nat)
  /\ (check_update (And TEXT (Invert COMMAND)) u = true ->
      check_update COMMAND u = false).
Proof.
  assert (Hcount : matching u =
            (Nat.b2n (notice u) + Nat.b2n (plain_text u) + Nat.b2n (edited u))%nat).
  { unfold matching, message_filters. cbn [List.filter].
    rewrite notice_filter, text_filter, edited_message_filter.
    destruct (notice u), (plain_text u), (edited u); reflexivity. }
  split; [exact Hcount |].
  split; [| split; [| split; [| apply text_excludes_command]]].
  - rewrite Hcount.
    destruct (notice u), (plain_text u), (edited u); cbn; split;
      try (intros; repeat split; reflexivity); try lia;
      intros (? & ? & ?); discriminate.
  - intros He Hp Hn. now rewrite Hcount, He, Hp, Hn.
  - intros He Hnt. rewrite Hcount, He.
    destruct (notice u), (plain_text u); cbn in *; try lia; discriminate.
Qed.

End MessageHandlers.

Lemma message_filters_exclusive_except_overlap_witness :
  Dispatch.matching Dispatch.edited_start = 1%nat
  /\ (Dispatch.matching Scenario.new_hello <= 1)%nat
  /\ check_update COMMAND Scenario.new_hello = false.
Proof.
  split; [| split].
  - exact (proj1 (proj2 (proj2 (message_filters_exclusive_except_overlap
                                  Dispatch.edited_start)))
                 eq_refl eq_refl eq_refl).
  - exact (proj1 (proj2 (proj2 (proj2 (message_filters_exclusive_except_overlap
                                         Scenario.new_hello))))
                 eq_refl eq_refl).
  - exact (proj2 (proj2 (proj2 (proj2 (message_filters_exclusive_except_overlap
                                         Scenario.new_hello))))
                 eq_refl).
Defined.

(** * Further properties of [bot.py] *)

(** ** The health responder on other paths *)

Section ResponderEdges.

Import Http.

Variable host : Host.

(** The comparison of line 36 is exact: a query string or a trailing slash
    after [/health] makes the path a different one.  A request with a
    version is then answered with [404 Not Found] and no body, an HTTP/0.9
    request with nothing at all. *)
Theorem health_path_is_exact (v suffix : string) :
  let r := do_GET host (incoming v ("/health" ++ suffix)) in
  let eol := String "013"%char (String "010"%char EmptyString) in
  suffix <> "" ->
  (standard_phrases host -> v <> "HTTP/0.9" ->
     wfile r =
       [ ("HTTP/1.0 404 Not Found" ++ eol
          ++ "Server: " ++ version_string host ++ eol
          ++ "Date: " ++ date_time_string host ++ eol
          ++ eol)%string ])
  /\ (v = "HTTP/0.9" -> wfile r = []).
Proof.
  cbn zeta. intros Hs.
  assert (Hne : ("/health" ++ suffix)%string <> "/health").
  { cbn. intros [= Heq]. contradiction. }
  split.
  - intros Hstd Hv. exact (missing_bytes host v _ Hstd Hv Hne).
  - intros ->. apply String.eqb_neq in Hne.
    now rewrite do_GET_simple_request, Hne.
Qed.

(** Whatever the request version, the path and the table of reason phrases:
    the body of line 40 is written last and exactly for [/health]; before it
    comes nothing for an HTTP/0.9 request and otherwise one write that
    starts with the status line for 200 ([/health]) or 404 (any other path)
    and ends with the blank line; the connection closes after the response
    and nothing is logged. *)
Theorem response_shape (v p : string) :
  let r := do_GET host (incoming v p) in
  let q := String "034"%char EmptyString in
  let eol := String "013"%char (String "010"%char EmptyString) in
  let body := ("{" ++ q ++ "status" ++ q ++ ": " ++ q ++ "healthy" ++ q ++ ", "
               ++ q ++ "bot" ++ q ++ ": " ++ q ++ "jokers-telegram-bot" ++ q
               ++ "}")%string in
  exists head : list string,
    wfile r = head ++ (if String.eqb p "/health" then [body] else [])
    /\ (v = "HTTP/0.9" -> head = [])
    /\ (v <> "HTTP/0.9" ->
        exists rest,
          head = [ ((if String.eqb p "/health"
                     then "HTTP/1.0 200 " else "HTTP/1.0 404 ")
                    ++ rest ++ eol ++ eol)%string ])
    /\ close_connection r = true
    /\ request_log r = [].
Proof.
  cbn zeta. destruct (String.eqb_spec v "HTTP/0.9") as [-> | Hv].
  - rewrite do_GET_simple_request. exists [].
    destruct (String.eqb p "/health"); cbn [wfile close_connection request_log app];
      repeat split; try reflexivity; intros Hc; now contradiction Hc.
  - rewrite (do_GET_full_request host v p Hv).
    destruct (String.eqb p "/health"); cbn [wfile close_connection request_log].
    + eexists [_]. split; [reflexivity |]. split; [contradiction |].
      split; [| split; reflexivity]. intros _.
      exists (match responses host 200%Z with Some m => m | None => "" end
              ++ crlf ++ "Server: " ++ version_string host ++ crlf
              ++ "Date: " ++ date_time_string host ++ crlf
              ++ "Content-type: application/json")%string.
      apply (f_equal (fun a => [a])). cbn [String.concat].
      unfold crlf. rewrite ?append_assoc. cbn [append].
      rewrite ?append_assoc. reflexivity.
    + eexists [_]. split; [reflexivity |]. split; [contradiction |].
      split; [| split; reflexivity]. intros _.
      exists (match responses host 404%Z with Some m => m | None => "" end
              ++ crlf ++ "Server: " ++ version_string host ++ crlf
              ++ "Date: " ++ date_time_string host)%string.
      apply (f_equal (fun a => [a])). cbn [String.concat].
      unfold crlf. rewrite ?append_assoc. cbn [append].
      rewrite ?append_assoc. reflexivity.
Qed.

End ResponderEdges.

Lemma health_path_is_exact_witness :
  let eol := String "013"%char (String "010"%char EmptyString) in
  Http.wfile (Http.do_GET Http.python311 (Http.incoming "HTTP/1.1" "/health?probe=1"))
  = [ ("HTTP/1.0 404 Not Found" ++ eol
       ++ "Server: BaseHTTP/0.6 Python/3.11.2" ++ eol
       ++ "Date: Wed, 04 Nov 2026 08:00:00 GMT" ++ eol
       ++ eol)%string ]
  /\ Http.wfile (Http.do_GET Http.python311 (Http.incoming "HTTP/0.9" "/health/")) = [].
Proof.
  cbn zeta. split.
  - apply (proj1 (health_path_is_exact Http.python311 "HTTP/1.1" "?probe=1"
                    ltac:(discriminate)));
      [split; reflexivity | discriminate].
  - apply (proj2 (health_path_is_exact Http.python311 "HTTP/0.9" "/"
                    ltac:(discriminate))).
    reflexivity.
Defined.

Lemma response_shape_witness :
  exists rest,
    Http.wfile (Http.do_GET Http.python311 (Http.incoming "HTTP/1.0" "/status"))
    = [ ("HTTP/1.0 404 " ++ rest
         ++ String "013"%char (String "010"%char EmptyString)
         ++ String "013"%char (String "010"%char EmptyString))%string ].
Proof.
  destruct (response_shape Http.python311 "HTTP/1.0" "/status")
    as (head & Hw & _ & Hhead & _).
  destruct (Hhead ltac:(discriminate)) as (rest & ->).
  exists rest. exact Hw.
Defined.

(** ** The flag, whatever the configuration *)

Section FlagEdges.

Import Config.

(** The resolution of lines 18-23 never raises: the [ImportError] of a
    missing attribute is always handled.  Without an explicit value the
    result is a [bool], and it depends on the environment through the two
    variables [RENDER] and [RENDER_SERVICE_ID] only. *)
Theorem flag_resolution_never_raises
    (config : gmap string value) (environ environ' : gmap string string) :
  (exists v, HEALTH_CHECK_ENABLED config environ = Ok v
             /\ (config !! "HEALTH_CHECK_ENABLED" = None -> exists b, v = VBool b))
  /\ (environ !! "RENDER" = environ' !! "RENDER" ->
      environ !! "RENDER_SERVICE_ID" = environ' !! "RENDER_SERVICE_ID" ->
      HEALTH_CHECK_ENABLED config environ = HEALTH_CHECK_ENABLED config environ').
Proof.
  split.
  - unfold HEALTH_CHECK_ENABLED, import_from_config.
    destruct (config !! "HEALTH_CHECK_ENABLED") as [v |].
    + exists v. split; [reflexivity | discriminate].
    + cbn [is_ImportError exn_cls]. eexists. split; [reflexivity |].
      intros _. eexists. reflexivity.
  - intros Hr Hs. unfold HEALTH_CHECK_ENABLED.
    destruct (import_from_config config "HEALTH_CHECK_ENABLED") as [v | e];
      [reflexivity |].
    destruct (is_ImportError e); [| reflexivity].
    unfold getenv. now rewrite Hr, Hs.
Qed.

End FlagEdges.

Lemma flag_resolution_never_raises_witness :
  Config.HEALTH_CHECK_ENABLED ∅ {[ "RENDER" := "true" ]}
  = Config.HEALTH_CHECK_ENABLED ∅ {[ "RENDER" := "true"; "HOME" := "/opt/render" ]}.
Proof.
  apply (proj2 (flag_resolution_never_raises
                  ∅ {[ "RENDER" := "true" ]}
                  {[ "RENDER" := "true"; "HOME" := "/opt/render" ]}));
    vm_compute; reflexivity.
Defined.

(** ** [setup_bot]: the log and the client it leaves *)

Section SetupBotEdges.

Context `{Env}.

Lemma client_call_keeps_log (o : op) (w w' : World) :
  In o setup_calls -> effect o w = Ok w' -> log w' = log w.
Proof.
  intros Hin He.
  now destruct (effect_client_call o w w' (setup_calls_client o Hin) He)
    as (_ & _ & _ & _ & Hlog).
Qed.

(** [setup_bot] writes exactly one log record, after its last library call:
    the INFO record of line 129 when it returns, the ERROR record of line
    132 with the exception's text when it raises an [Exception]; an
    exception that is not an [Exception] leaves the log untouched. *)
Theorem setup_bot_logs_once (w : World) :
  match fst (setup_bot w) with
  | Ok _ =>
      log (snd (setup_bot w)) =
        log w ++ [(INFO, "Bot handlers configured successfully")]
  | Raise e =>
      log (snd (setup_bot w)) =
        log w ++ (if is_Exception e
                  then [(ERROR, ("Failed to setup bot: " ++ exn_msg e)%string)]
                  else [])
  end.
Proof.
  pose proof (perform_all_preserves log setup_calls client_call_keeps_log w) as Hlog.
  unfold setup_bot, try_except. rewrite setup_bot_body_calls. unfold bind.
  destruct (perform_all setup_calls w) as [[[] | e] w1]; cbn [fst snd] in *.
  - now rewrite <- Hlog.
  - destruct (is_Exception e) eqn:He; cbn [fst snd].
    + cbn [logger_error modify raise bind fst snd add_log log].
      now rewrite He, Hlog.
    + rewrite He, app_nil_r. exact Hlog.
Qed.

Lemma client_call_keeps_client (o : op) (w w' : World) :
  client_call o -> application w <> None -> effect o w = Ok w' ->
  application w' <> None.
Proof.
  destruct o; cbn [client_call effect]; try contradiction; intros _ Happ.
  - intros [= <-]. discriminate.
  - destruct (application w); [| contradiction]. intros [= <-]. discriminate.
  - destruct (application w); [| contradiction]. intros [= <-]. discriminate.
Qed.

Lemma perform_all_keeps_client (os : list op) (w w1 : World) :
  (forall o, In o os -> client_call o) ->
  application w <> None ->
  perform_all os w = (Ok tt, w1) ->
  application w1 <> None.
Proof.
  revert w. induction os as [| o os IH]; intros w Hos Happ.
  - cbn. now intros [= <-].
  - cbn [perform_all]. unfold bind, perform.
    destruct (fault o w); [discriminate |].
    destruct (effect o w) as [w' | e] eqn:He; [| discriminate].
    apply IH.
    + intros o' Hin. apply Hos. now right.
    + apply (client_call_keeps_client o w w'); [apply Hos; now left | exact Happ | exact He].
Qed.

(** A [setup_bot] that fails after the client was built leaves
    [self.application] set, with the registrations made so far: the guard of
    [start] (line 73) sees a client, and a [start] on that bot polls. *)
Theorem failed_setup_leaves_client
    (w : World) (pre post : list op) (o : op) (e : exn) (w1 : World) :
  setup_calls = pre ++ o :: post ->
  pre <> [] ->
  perform_all pre w = (Ok tt, w1) ->
  fst (perform o w1) = Raise e ->
  fst (setup_bot w) = Raise e
  /\ application (snd (setup_bot w)) = application w1
  /\ application w1 <> None
  /\ (fst (when (truthy HEALTH_CHECK_ENABLED && not_ (health_server (snd (setup_bot w))))
                setup_health_server (snd (setup_bot w))) = Ok tt ->
      polls (snd (start (snd (setup_bot w))))
        = polls (snd (setup_bot w)) ++ [polling_arguments]).
Proof.
  intros Hcalls Hpre Hrun Ho.
  assert (Hbody : setup_bot_body w = (Raise e, w1)).
  { rewrite setup_bot_body_calls, Hcalls. unfold bind.
    now rewrite (perform_all_raises pre post o e w w1 Hrun Ho). }
  assert (Happ1 : application w1 <> None).
  { destruct pre as [| o0 pre']; [contradiction |].
    assert (Hin : forall o', In o' (o0 :: pre') -> In o' setup_calls).
    { intros o' Hin. rewrite Hcalls. apply in_or_app. now left. }
    assert (Ho0 : o0 = OpBuild BOT_TOKEN).
    { unfold setup_calls in Hcalls. cbn [app] in Hcalls. now injection Hcalls. }
    subst o0. cbn [perform_all] in Hrun. unfold bind, perform in Hrun.
    destruct (fault (OpBuild BOT_TOKEN) w); [discriminate |].
    cbn [effect] in Hrun.
    eapply (perform_all_keeps_client pre'); [| | exact Hrun].
    - intros o' Hin'. apply setup_calls_client, Hin. now right.
    - discriminate. }
  assert (Happ : application (snd (setup_bot w)) = application w1).
  { unfold setup_bot, try_except. rewrite Hbody. destruct (is_Exception e); reflexivity. }
  split; [exact (setup_bot_raises w w1 e Hbody) |].
  split; [exact Happ |]. split; [exact Happ1 |].
  apply start_calls_run_polling. now rewrite Happ.
Qed.

End SetupBotEdges.

Lemma setup_bot_registers_witness :
  application (snd (setup_bot (H := Scenario.on_render) Faults.configured))
  = Some Faults.configured_client.
Proof.
  exact (setup_bot_registers (H := Scenario.on_render) Faults.configured
           (snd (setup_bot (H := Scenario.on_render) Faults.configured)) eq_refl).
Defined.

Lemma failed_setup_leaves_client_witness :
  let w := snd (setup_bot (H := Scenario.bad_registration) Scenario.fresh) in
  application w
    = Some {| handlers := [CommandHandler "start" start_command]; error_handlers := [] |}
  /\ polls (snd (start (H := Scenario.bad_registration) w))
     = [polling_arguments].
Proof.
  cbn zeta.
  pose proof (failed_setup_leaves_client (H := Scenario.bad_registration)
                Scenario.fresh
                [ OpBuild (VStr "123456:TOKEN");
                  OpAddHandler (CommandHandler "start" start_command) ]
                _
                (OpAddHandler (CommandHandler "help" help_command))
                (Exn ValueError "Command `help` is not a valid bot command")
                _ eq_refl ltac:(discriminate) eq_refl eq_refl)
    as (_ & Happ & _ & Hpoll).
  split; [exact Happ | exact (Hpoll eq_refl)].
Defined.

(** ** [setup_health_server] and [start] when a call fails *)

Section HealthEdges.

Context `{Env}.

(** [except Exception] (line 67) does not catch an exception that is not an
    [Exception]: a [KeyboardInterrupt] during the bind leaves
    [setup_health_server] as it came, and [start] then raises it at once,
    with nothing logged and without calling [run_polling]. *)
Theorem interrupt_escapes_health_setup (w : World) (e : exn) :
  fault (OpHTTPServer bound_server) w = Some e ->
  is_Exception e = false ->
  setup_health_server w = (Raise e, w)
  /\ (application w <> None ->
      truthy HEALTH_CHECK_ENABLED = true ->
      health_server w = None ->
      start w = (Raise e, w)).
Proof.
  intros Hbind Hexn.
  assert (Hshs : setup_health_server w = (Raise e, w)).
  { rewrite setup_health_server_cases. cbn zeta. now rewrite Hbind, Hexn. }
  split; [exact Hshs |].
  intros Happ Hflag Hnone. rewrite start_outcome.
  destruct (application w); [| contradiction].
  rewrite Hflag, Hnone. cbn [andb not_ when]. now rewrite Hshs, Hexn.
Qed.

Lemma after_starts_keeps_server (n : nat) (w : World) :
  health_server w <> None ->
  health_server (after_starts n w) = health_server w
  /\ threads (after_starts n w) = threads w
  /\ listening (after_starts n w) = listening w.
Proof.
  revert w. induction n as [| n IH]; intros w Hw; [repeat split |].
  cbn [after_starts].
  assert (Hguard : truthy HEALTH_CHECK_ENABLED && not_ (health_server w) = false).
  { destruct (health_server w); [apply andb_false_r | contradiction]. }
  destruct (start_without_health_phase w Hguard) as (Hl & Ht & Hh).
  destruct (IH (snd (start w))) as (Hh' & Ht' & Hl'); [now rewrite Hh |].
  rewrite Hh', Ht', Hl'. now rewrite Hh, Ht, Hl.
Qed.

(** When the bind goes through and the thread cannot be started, the
    failure is caught and logged as a warning, but the server stays bound
    and stays in [self.health_server] with no thread serving it; [start]
    then finds a server and never tries again. *)
Theorem unserved_server_is_kept (w : World) (e : exn) :
  fault (OpHTTPServer bound_server) w = None ->
  fault (OpThreadStart health_thread)
        (set_health_server (Some bound_server) (add_listening bound_server w)) = Some e ->
  is_Exception e = true ->
  let w' := snd (setup_health_server w) in
  fst (setup_health_server w) = Ok tt
  /\ health_server w' = Some bound_server
  /\ listening w' = listening w ++ [bound_server]
  /\ threads w' = threads w
  /\ log w' = log w ++ [(WARNING, ("Could not start health server: " ++ exn_msg e)%string)]
  /\ (forall n, threads (after_starts n w') = threads w
                /\ listening (after_starts n w') = listening w ++ [bound_server]).
Proof.
  intros Hbind Hthread Hexn. cbn zeta.
  assert (Hshs : setup_health_server w =
                 (Ok tt, add_log WARNING
                           ("Could not start health server: " ++ exn_msg e)
                           (set_health_server (Some bound_server)
                                              (add_listening bound_server w)))).
  { rewrite setup_health_server_cases. cbn zeta.
    now rewrite Hbind, Hthread, Hexn. }
  rewrite Hshs. cbn [fst snd].
  do 5 (split; [reflexivity |]).
  intros n.
  match goal with
  | |- context [after_starts n ?v] =>
      destruct (after_starts_keeps_server n v) as (_ & Ht & Hl); [discriminate |]
  end.
  rewrite Ht, Hl. split; reflexivity.
Qed.

(** [start] sets the health server up when the constructor did not: with the
    flag on and no server in [self.health_server], a [start] whose bind and
    thread start go through binds the server, starts the daemon thread, and
    then polls. *)
Theorem start_sets_up_missing_server (w : World) :
  application w <> None ->
  truthy HEALTH_CHECK_ENABLED = true ->
  health_server w = None ->
  fault (OpHTTPServer bound_server) w = None ->
  fault (OpThreadStart health_thread)
        (set_health_server (Some bound_server) (add_listening bound_server w)) = None ->
  health_server (snd (start w)) = Some bound_server
  /\ listening (snd (start w)) = listening w ++ [bound_server]
  /\ threads (snd (start w)) = threads w ++ [health_thread]
  /\ polls (snd (start w)) = polls w ++ [polling_arguments].
Proof.
  intros Happ Hflag Hnone Hbind Hthread.
  assert (Hshs : setup_health_server w =
                 (Ok tt,
                  add_log INFO ("Health check server started on port " ++ str PORT)
                    (add_thread health_thread
                       (set_health_server (Some bound_server)
                                          (add_listening bound_server w))))).
  { rewrite setup_health_server_cases. cbn zeta. now rewrite Hbind, Hthread. }
  assert (Hphase : when (truthy HEALTH_CHECK_ENABLED && not_ (health_server w))
                        setup_health_server w = setup_health_server w).
  { now rewrite Hflag, Hnone. }
  destruct (start_health_effect w) as (Hl & Ht & Hh).
  destruct (application w) eqn:Ha; [| contradiction].
  rewrite Hphase, Hshs in Hl, Ht, Hh. cbn [snd] in Hl, Ht, Hh.
  rewrite Hl, Ht, Hh. do 3 (split; [reflexivity |]).
  apply start_calls_run_polling; [now rewrite Ha |].
  now rewrite Hphase, Hshs.
Qed.

(** Health-server trouble never fails the construction: in an environment
    where every failure is an [Exception], [setup_health_server] always
    returns, and the constructor returns whenever [setup_bot] does. *)
Theorem health_setup_cannot_fail_construction :
  (forall o w e, fault o w = Some e -> is_Exception e = true) ->
  (forall w, fst (setup_health_server w) = Ok tt)
  /\ (forall w0, fst (setup_bot (reset_fields w0)) = Ok tt -> fst (__init__ w0) = Ok tt).
Proof.
  intros Hfaults.
  assert (Hshs : forall w, fst (setup_health_server w) = Ok tt).
  { intros w. rewrite setup_health_server_cases. cbn zeta.
    destruct (fault (OpHTTPServer bound_server) w) as [e |] eqn:Hb.
    - now rewrite (Hfaults _ _ _ Hb).
    - destruct (fault (OpThreadStart health_thread) _) as [e |] eqn:Ht; [| reflexivity].
      now rewrite (Hfaults _ _ _ Ht). }
  split; [exact Hshs |].
  intros w0 Hsetup. rewrite init_unfold. unfold bind.
  destruct (setup_bot (reset_fields w0)) as [[[] | e] w1]; cbn [fst] in *;
    [| discriminate].
  destruct (truthy HEALTH_CHECK_ENABLED); cbn [when]; [apply Hshs | reflexivity].
Qed.

End HealthEdges.

(** ** [start] over time *)

Section StartEdges.

Context `{Env}.

(** Whatever [Exception] [start] raises, it has logged it: the last log
    record is the ERROR record of line 96 with the exception's text. *)
Theorem start_logs_what_it_raises (w w' : World) (e : exn) :
  start w = (Raise e, w') ->
  is_Exception e = true ->
  exists earlier,
    log w' = earlier ++ [(ERROR, ("Error starting bot: " ++ exn_msg e)%string)].
Proof.
  rewrite start_outcome. intros Hstart Hexn.
  assert (Hfailed : forall e0 v, start_failed e0 v = (Raise e, w') ->
            exists earlier,
              log w' = earlier ++ [(ERROR, ("Error starting bot: " ++ exn_msg e)%string)]).
  { intros e0 v. rewrite start_failed_outcome. intros [= -> <-].
    exists (log v). reflexivity. }
  destruct (application w); [| now apply (Hfailed _ _ Hstart)].
  destruct (when _ setup_health_server w) as [[[] | e0] v].
  - cbn zeta in Hstart.
    destruct (fault _ _) as [e0 |]; [| discriminate].
    destruct (is_Exception e0) eqn:He0; [now apply (Hfailed _ _ Hstart) |].
    injection Hstart as -> _. congruence.
  - destruct (is_Exception e0) eqn:He0; [now apply (Hfailed _ _ Hstart) |].
    injection Hstart as -> _. congruence.
Qed.

(** However often [start] is called, every call of [run_polling] it has
    made carries the arguments of lines 86-92, and there is at most one such
    call per [start]. *)
Theorem repeated_starts_poll_alike (n : nat) (w : World) :
  exists k, (k <= n)%nat
            /\ polls (after_starts n w) = polls w ++ repeat polling_arguments k.
Proof.
  revert w. induction n as [| n IH]; intros w.
  - exists 0%nat. split; [lia | now rewrite app_nil_r].
  - cbn [after_starts]. destruct (IH (snd (start w))) as (k & Hk & Hpolls).
    destruct (start_polls w) as [Hsame | Hmore].
    + exists k. split; [lia | now rewrite Hpolls, Hsame].
    + exists (S k). split; [lia |].
      rewrite Hpolls, Hmore, <- app_assoc. reflexivity.
Qed.

(** In an environment where no call fails, constructing the bot and starting
    it returns normally with the nine handlers and the error handler
    registered and exactly one call of [run_polling]; with the flag on, one
    server is bound and served by one daemon thread, with the flag off
    none. *)
Theorem clean_run (w0 : World) :
  (forall o w, fault o w = None) ->
  fst (run_bot w0) = Ok tt
  /\ application (snd (run_bot w0)) = Some Faults.configured_client
  /\ polls (snd (run_bot w0)) = polls w0 ++ [polling_arguments]
  /\ (if truthy HEALTH_CHECK_ENABLED
      then health_server (snd (run_bot w0)) = Some bound_server
           /\ listening (snd (run_bot w0)) = listening w0 ++ [bound_server]
           /\ threads (snd (run_bot w0)) = threads w0 ++ [health_thread]
      else health_server (snd (run_bot w0)) = None
           /\ listening (snd (run_bot w0)) = listening w0
           /\ threads (snd (run_bot w0)) = threads w0).
Proof.
  intros Hcalm.
  assert (Hperform : forall o w, perform o w =
            match effect o w with
            | Ok w' => (Ok tt, w')
            | Raise e => (Raise e, w)
            end).
  { intros o w. unfold perform. now rewrite Hcalm. }
  assert (Hsetup : setup_bot (reset_fields w0) =
            (Ok tt,
             add_log INFO "Bot handlers configured successfully"
               (set_application (Some Faults.configured_client) (reset_fields w0)))).
  { unfold setup_bot, try_except, setup_bot_body, add_handler, add_error_handler.
    repeat (unfold bind at 1; rewrite Hperform;
            cbn [effect application set_application handlers error_handlers app]).
    reflexivity. }
  assert (Hshs : forall w, setup_health_server w =
            (Ok tt,
             add_log INFO ("Health check server started on port " ++ str PORT)
               (add_thread health_thread
                  (set_health_server (Some bound_server)
                                     (add_listening bound_server w))))).
  { intros w. rewrite setup_health_server_cases. cbn zeta. now rewrite !Hcalm. }
  destruct (truthy HEALTH_CHECK_ENABLED) eqn:Hflag.
  - assert (Hrun : exists wf,
              run_bot w0 = (Ok tt, wf)
              /\ application wf = Some Faults.configured_client
              /\ polls wf = polls w0 ++ [polling_arguments]
              /\ health_server wf = Some bound_server
              /\ listening wf = listening w0 ++ [bound_server]
              /\ threads wf = threads w0 ++ [health_thread]).
    { unfold run_bot, bind. rewrite init_unfold. unfold bind.
      rewrite Hsetup, Hflag. cbn [when]. rewrite Hshs, start_outcome.
      cbn [application add_log add_thread set_health_server add_listening
           set_application reset_fields health_server not_].
      rewrite andb_false_r. cbn [when ret]. cbn zeta. rewrite Hcalm.
      eexists. split; [reflexivity | repeat split]. }
    destruct Hrun as (wf & -> & Happ & Hpolls & Hhs & Hl & Ht). cbn [fst snd].
    repeat split; assumption.
  - assert (Hrun : exists wf,
              run_bot w0 = (Ok tt, wf)
              /\ application wf = Some Faults.configured_client
              /\ polls wf = polls w0 ++ [polling_arguments]
              /\ health_server wf = None
              /\ listening wf = listening w0
              /\ threads wf = threads w0).
    { unfold run_bot, bind. rewrite init_unfold. unfold bind.
      rewrite Hsetup, Hflag. cbn [when ret]. rewrite start_outcome.
      cbn [application add_log set_application reset_fields health_server not_].
      rewrite Hflag. cbn [andb when ret]. cbn zeta. rewrite Hcalm.
      eexists. split; [reflexivity | repeat split]. }
    destruct Hrun as (wf & -> & Happ & Hpolls & Hhs & Hl & Ht). cbn [fst snd].
    repeat split; assumption.
Qed.

End StartEdges.

Lemma interrupt_escapes_health_setup_witness :
  start (H := Faults.interrupted) Faults.configured
  = (Raise (Exn KeyboardInterrupt ""), Faults.configured).
Proof.
  refine (proj2 (interrupt_escapes_health_setup (H := Faults.interrupted)
                   Faults.configured (Exn KeyboardInterrupt "") eq_refl eq_refl)
                _ eq_refl eq_refl).
  discriminate.
Defined.

Lemma unserved_server_is_kept_witness :
  let w' := snd (setup_health_server (H := Faults.thread_limit) Faults.configured) in
  health_server w' = Some (bound_server (H := Faults.thread_limit))
  /\ threads (after_starts (H := Faults.thread_limit) 3 w') = []
  /\ listening (after_starts (H := Faults.thread_limit) 3 w')
     = [bound_server (H := Faults.thread_limit)].
Proof.
  cbn zeta.
  pose proof (unserved_server_is_kept (H := Faults.thread_limit) Faults.configured
                (Exn RuntimeError "can't start new thread") eq_refl eq_refl eq_refl)
    as (_ & Hhs & _ & _ & _ & Hlater).
  split; [exact Hhs | exact (Hlater 3%nat)].
Defined.

Lemma start_sets_up_missing_server_witness :
  health_server (snd (start (H := Scenario.on_render) Faults.configured))
    = Some (bound_server (H := Scenario.on_render))
  /\ listening (snd (start (H := Scenario.on_render) Faults.configured))
     = [bound_server (H := Scenario.on_render)]
  /\ threads (snd (start (H := Scenario.on_render) Faults.configured))
     = [health_thread (H := Scenario.on_render)]
  /\ polls (snd (start (H := Scenario.on_render) Faults.configured))
     = [polling_arguments].
Proof.
  refine (start_sets_up_missing_server (H := Scenario.on_render) Faults.configured
            _ eq_refl eq_refl eq_refl eq_refl).
  discriminate.
Defined.

Lemma health_setup_cannot_fail_construction_witness :
  fst (setup_health_server (H := Scenario.port_in_use) Scenario.fresh) = Ok tt
  /\ fst (__init__ (H := Scenario.port_in_use) Scenario.fresh) = Ok tt.
Proof.
  assert (Hfaults : forall o w e, fault (Env := Scenario.port_in_use) o w = Some e ->
                                  is_Exception e = true).
  { intros o w e. destruct o; cbn; intros [= <-]; reflexivity. }
  destruct (health_setup_cannot_fail_construction (H := Scenario.port_in_use) Hfaults)
    as [Hshs Hinit].
  split; [apply Hshs | apply Hinit; reflexivity].
Defined.

Lemma start_logs_what_it_raises_witness :
  exists earlier,
    log (snd (start (H := Faults.network_down) Faults.configured))
    = earlier ++ [(ERROR, "Error starting bot: Bad Gateway")].
Proof.
  exact (start_logs_what_it_raises (H := Faults.network_down) Faults.configured
           (snd (start (H := Faults.network_down) Faults.configured))
           (Exn (OtherException "NetworkError") "Bad Gateway")
           eq_refl eq_refl).
Defined.

Lemma clean_run_witness :
  fst (run_bot (H := Scenario.on_render) Scenario.fresh) = Ok tt
  /\ polls (snd (run_bot (H := Scenario.on_render) Scenario.fresh)) = [polling_arguments]
  /\ listening (snd (run_bot (H := Scenario.on_render) Scenario.fresh))
     = [bound_server (H := Scenario.on_render)].
Proof.
  pose proof (clean_run (H := Scenario.on_render) Scenario.fresh
                (fun _ _ => eq_refl)) as (Hok & _ & Hpolls & _ & Hl & _).
  split; [exact Hok |]. split; [exact Hpolls | exact Hl].
Defined.
